(** * voltai backend: a model of [main.py] and the properties of its endpoints

    The program is a FastAPI service with four handlers:
    [get_lst] (Earth Engine queries, a thumbnail download and a file write),
    [get_street_view] and [get_hybrid_map] (an HTTP download and a file
    write each) and [calculate_teg_plan] (arithmetic on Python floats).

    Python floats are IEEE-754 binary64 values; they are modelled by
    [spec_float] with the binary64 parameters, so every arithmetic result
    below is the bit-exact one.  Remote services are an oracle ([World]);
    the local file system is a finite map from paths to byte strings. *)

From Stdlib Require Import ZArith String Ascii List Lia Bool.
From Stdlib Require Import Floats.SpecFloat.
From stdpp Require Import base option gmap strings.
Import ListNotations.

Local Open Scope string_scope.
Local Open Scope Z_scope.

(** ** Binary64 arithmetic *)

Module Float64.

Definition prec : Z := 53.
Definition emax : Z := 1024.

Definition float : Type := spec_float.

Definition fmul : float -> float -> float := SFmul prec emax.
Definition fdiv : float -> float -> float := SFdiv prec emax.

(** The double nearest to [n / d] (ties to even) carrying sign [s]:
    the division of IEEE-754 applied to two exact integers. *)
Definition nearest_pos (s : bool) (n d : positive) : float :=
  fdiv (S754_finite s n 0) (S754_finite false d 0).

Definition signed_nearest (s : bool) (n d : Z) : float :=
  match n, d with
  | Zpos n', Zpos d' => nearest_pos s n' d'
  | _, _ => S754_zero s
  end.

Definition nearest (p : Z) (q : positive) : float :=
  match p with
  | Z0 => S754_zero false
  | Zpos n => nearest_pos false n q
  | Zneg n => nearest_pos true n q
  end.

(** A decimal literal [c * 10^j] as the parser reads it. *)
Definition of_decimal (c j : Z) : float :=
  match j with
  | Zneg k => signed_nearest false c (10 ^ Zpos k)
  | _ => signed_nearest false (c * 10 ^ j) 1
  end.

(** [float(z)] for a Python int, before the overflow check. *)
Definition of_Z (z : Z) : float := binary_normalize prec emax z 0 false.

Definition is_infinite (x : float) : bool :=
  match x with S754_infinity _ => true | _ => false end.

Definition float_eqb (a b : float) : bool :=
  match a, b with
  | S754_zero s, S754_zero t => Bool.eqb s t
  | S754_infinity s, S754_infinity t => Bool.eqb s t
  | S754_nan, S754_nan => true
  | S754_finite s m e, S754_finite t n f =>
      Bool.eqb s t && Pos.eqb m n && Z.eqb e f
  | _, _ => false
  end.

(** The magnitude [m * 2^e] of a finite double as a fraction. *)
Definition magnitude (m : positive) (e : Z) : Z * Z :=
  match e with
  | Zneg k => (Zpos m, 2 ^ Zpos k)
  | _ => (Zpos m * 2 ^ e, 1)
  end.

Definition round_half_even (n d : Z) : Z :=
  let q := n / d in
  match (2 * (n mod d)) ?= d with
  | Lt => q
  | Gt => q + 1
  | Eq => if Z.even q then q else q + 1
  end.

(** [round(x, ndigits)] on a float, for [ndigits >= 0]: the exact value is
    rounded half-even to [ndigits] decimals and the decimal is read back
    as the nearest double.  Infinities and NaN round to themselves.  For
    [ndigits >= 0] the result never exceeds the largest double, so the
    OverflowError of [float.__round__] cannot arise. *)
Definition round_digits (x : float) (ndigits : nat) : float :=
  match x with
  | S754_finite s m e =>
      let '(n, d) := magnitude m e in
      let scale := 10 ^ Z.of_nat ndigits in
      signed_nearest s (round_half_even (n * scale) d) scale
  | _ => x
  end.

(** *** Text of a float: [repr] *)

Definition digit_char (d : Z) : ascii := ascii_of_nat (48 + Z.to_nat d).

Fixpoint decimal_go (fuel : nat) (n : Z) (acc : string) : string :=
  match fuel with
  | O => acc
  | S fuel' =>
      let acc' := String (digit_char (n mod 10)) acc in
      if Z.eqb (n / 10) 0 then acc' else decimal_go fuel' (n / 10) acc'
  end.

(** [str(n)] for an int [n >= 0]. *)
Definition decimal (n : Z) : string :=
  decimal_go (S (Z.to_nat (Z.log2 n))) n "".

Definition strlen (s : string) : Z := Z.of_nat (String.length s).

Fixpoint rstrip0 (s : string) : string :=
  match s with
  | EmptyString => EmptyString
  | String c r =>
      match rstrip0 r with
      | EmptyString =>
          if Ascii.eqb c "0" then EmptyString else String c EmptyString
      | r' => String c r'
      end
  end.

Fixpoint zeros (n : nat) : string :=
  match n with O => "" | S k => String "0" (zeros k) end.

(** Least [k] with [n / d < 10^k]. *)
Definition decimal_exponent (n d : Z) : Z :=
  let k0 := strlen (decimal n) - strlen (decimal d) in
  let ge := match k0 with
            | Zneg j => d <=? n * 10 ^ Zpos j
            | _ => d * 10 ^ k0 <=? n
            end in
  if ge then k0 + 1 else k0.

(** The [nd]-digit decimal next to [m * 2^e] that reads back as the same
    double, if there is one; if both neighbours do, the closer one, and the
    one with an even last digit when the value is half-way between them. *)
Definition candidate (m : positive) (e : Z) (k nd : Z) : option Z :=
  let '(n, d) := magnitude m e in
  let '(sn, sd) := match nd - k with
                   | Zneg j => (n, d * 10 ^ Zpos j)
                   | j => (n * 10 ^ j, d)
                   end in
  let lo := sn / sd in
  let hi := lo + 1 in
  let back c := float_eqb (of_decimal c (k - nd)) (S754_finite false m e) in
  match back lo, back hi with
  | true, true =>
      Some match 2 * (sn mod sd) ?= sd with
           | Lt => lo
           | Gt => hi
           | Eq => if Z.even lo then lo else hi
           end
  | true, false => Some lo
  | false, true => Some hi
  | false, false => None
  end.

Fixpoint shortest_go (fuel : nat) (m : positive) (e : Z) (k nd : Z) : Z * Z :=
  match fuel with
  | O => (Zpos m, e)
  | S fuel' =>
      match candidate m e k nd with
      | Some c => (c, k - nd)
      | None => shortest_go fuel' m e k (nd + 1)
      end
  end.

(** Shortest digit string that reads back as the double, and the position
    of the decimal point relative to its first digit. *)
Definition shortest (m : positive) (e : Z) : string * Z :=
  let '(n, d) := magnitude m e in
  let k := decimal_exponent n d in
  let '(c, j) := shortest_go 17 m e k 1 in
  let ds := decimal c in
  (rstrip0 ds, strlen ds + j).

Definition exponent_text (x : Z) : string :=
  let a := decimal (Z.abs x) in
  (if x <? 0 then "-" else "+") ++ (if strlen a <? 2 then "0" ++ a else a).

Definition float_repr_finite (ds : string) (decpt : Z) : string :=
  if (decpt <=? -4) || (16 <? decpt) then
    match ds with
    | String c EmptyString => String c ("e" ++ exponent_text (decpt - 1))
    | String c r => String c ("." ++ r ++ "e" ++ exponent_text (decpt - 1))
    | EmptyString => ""
    end
  else if decpt <=? 0 then "0." ++ zeros (Z.to_nat (- decpt)) ++ ds
  else if strlen ds <=? decpt then
    ds ++ zeros (Z.to_nat (decpt - strlen ds)) ++ ".0"
  else
    substring 0 (Z.to_nat decpt) ds ++ "." ++
    substring (Z.to_nat decpt) (String.length ds - Z.to_nat decpt) ds.

(** [repr(x)], which is also [str(x)] and what an f-string inserts. *)
Definition float_repr (x : float) : string :=
  match x with
  | S754_nan => "nan"
  | S754_infinity s => if s then "-inf" else "inf"
  | S754_zero s => if s then "-0.0" else "0.0"
  | S754_finite s m e =>
      let '(ds, decpt) := shortest m e in
      (if s then "-" else "") ++ float_repr_finite ds decpt
  end.

End Float64.

(** ** Python values, exceptions and the few built-ins the handlers use *)

Module Py.
Import Float64.

Inductive exn : Type :=
| OverflowError
| TypeError
| ServiceError (what : string).

Inductive outcome (A : Type) : Type :=
| Returned (a : A)
| Raised (e : exn).
Arguments Returned {A} a.
Arguments Raised {A} e.

Definition obind {A B} (o : outcome A) (k : A -> outcome B) : outcome B :=
  match o with
  | Returned a => k a
  | Raised e => Raised e
  end.

Inductive pyval : Type :=
| PyNone
| PyInt (z : Z)
| PyFloat (x : float)
| PyStr (s : string).

(** A dict literal or a decoded JSON object, in insertion order. *)
Definition dict : Type := list (string * pyval).

(** [d.get(k)]: [None] when the key is absent. *)
Fixpoint dict_get (d : dict) (k : string) : pyval :=
  match d with
  | [] => PyNone
  | (k', v) :: rest => if String.eqb k' k then v else dict_get rest k
  end.

(** Truth value, as [if v] tests it. *)
Definition truthy (v : pyval) : bool :=
  match v with
  | PyNone => false
  | PyInt z => negb (Z.eqb z 0)
  | PyFloat (S754_zero _) => false
  | PyFloat _ => true
  | PyStr s => negb (String.eqb s "")
  end.

(** [round(v, ndigits)] with [ndigits >= 0]: an int is returned as it is. *)
Definition py_round (v : pyval) (ndigits : nat) : outcome pyval :=
  match v with
  | PyFloat x => Returned (PyFloat (round_digits x ndigits))
  | PyInt z => Returned (PyInt z)
  | _ => Raised TypeError
  end.

(** [v / d] for an int literal [d > 0]: float division, or the correctly
    rounded true division of two ints. *)
Definition py_truediv (v : pyval) (d : positive) : outcome pyval :=
  match v with
  | PyFloat x => Returned (PyFloat (fdiv x (of_Z (Zpos d))))
  | PyInt z =>
      let q := nearest z d in
      if is_infinite q then Raised OverflowError else Returned (PyFloat q)
  | _ => Raised TypeError
  end.

(** [n * x] for an int [n] and a float [x]: the int is converted first. *)
Definition int_mul_float (n : Z) (x : float) : outcome float :=
  let f := of_Z n in
  if is_infinite f then Raised OverflowError else Returned (fmul f x).

(** [s.replace(a, b)] for one-character [a] and [b]. *)
Fixpoint replace_char (a b : ascii) (s : string) : string :=
  match s with
  | EmptyString => EmptyString
  | String c r =>
      String (if Ascii.eqb c a then b else c) (replace_char a b r)
  end.

(** [os.path.join(a, b)] on POSIX. *)
Definition os_path_join (a b : string) : string :=
  match b with
  | String "/" _ => b
  | _ =>
      if String.eqb a "" then b
      else if String.eqb (substring (String.length a - 1) 1 a) "/" then a ++ b
      else a ++ "/" ++ b
  end.

End Py.

(** ** [datetime]: the calendar arithmetic and [strftime] *)

Module Datetime.
Import Float64 Py.

(** A naive datetime; microseconds are not observable through the two
    formats the program prints. *)
Record datetime : Type := {
  year : Z; month : Z; day : Z;
  hour : Z; minute : Z; second : Z
}.

Definition is_leap (y : Z) : bool :=
  Z.eqb (y mod 4) 0 && (negb (Z.eqb (y mod 100) 0) || Z.eqb (y mod 400) 0).

Definition days_before_year (y : Z) : Z :=
  let p := y - 1 in
  p * 365 + p / 4 - p / 100 + p / 400.

Definition DAYS_IN_MONTH (m : Z) : Z :=
  nth (Z.to_nat m) [-1; 31; 28; 31; 30; 31; 30; 31; 31; 30; 31; 30; 31] 0.

Definition DAYS_BEFORE_MONTH (m : Z) : Z :=
  nth (Z.to_nat m) [-1; 0; 31; 59; 90; 120; 151; 181; 212; 243; 273; 304; 334] 0.

Definition days_before_month (y m : Z) : Z :=
  DAYS_BEFORE_MONTH m + (if (2 <? m) && is_leap y then 1 else 0).

Definition ymd2ord (y m d : Z) : Z :=
  days_before_year y + days_before_month y m + d.

Definition DI400Y : Z := 146097.
Definition DI100Y : Z := 36524.
Definition DI4Y : Z := 1461.
Definition MAXORDINAL : Z := 3652059.

Definition ord2ymd (ordinal : Z) : Z * Z * Z :=
  let n := ordinal - 1 in
  let n400 := n / DI400Y in
  let n := n mod DI400Y in
  let n100 := n / DI100Y in
  let n := n mod DI100Y in
  let n4 := n / DI4Y in
  let n := n mod DI4Y in
  let n1 := n / 365 in
  let n := n mod 365 in
  let y := n400 * 400 + 1 + n100 * 100 + n4 * 4 + n1 in
  if Z.eqb n1 4 || Z.eqb n100 4 then (y - 1, 12, 31)
  else
    let leapyear := Z.eqb n1 3 && (negb (Z.eqb n4 24) || Z.eqb n100 3) in
    let m := Z.shiftr (n + 50) 5 in
    let preceding := DAYS_BEFORE_MONTH m + (if (2 <? m) && leapyear then 1 else 0) in
    if n <? preceding then
      let m' := m - 1 in
      let preceding' :=
        preceding - (DAYS_IN_MONTH m' + (if Z.eqb m' 2 && leapyear then 1 else 0)) in
      (y, m', n - preceding' + 1)
    else (y, m, n - preceding + 1).

(** [t - timedelta(days=n)]. *)
Definition minus_days (t : datetime) (n : Z) : outcome datetime :=
  let o := ymd2ord (year t) (month t) (day t) - n in
  if (0 <? o) && (o <=? MAXORDINAL) then
    let '(y, m, d) := ord2ymd o in
    Returned {| year := y; month := m; day := d;
                hour := hour t; minute := minute t; second := second t |}
  else Raised OverflowError.

(** Zero-padded decimal of width [w]. *)
Definition pad (w : nat) (n : Z) : string :=
  let s := decimal n in
  zeros (w - String.length s) ++ s.

Definition directive (c : ascii) (t : datetime) : string :=
  if Ascii.eqb c "Y" then pad 4 (year t)
  else if Ascii.eqb c "m" then pad 2 (month t)
  else if Ascii.eqb c "d" then pad 2 (day t)
  else if Ascii.eqb c "H" then pad 2 (hour t)
  else if Ascii.eqb c "M" then pad 2 (minute t)
  else if Ascii.eqb c "S" then pad 2 (second t)
  else String "%" (String c "").

(** [t.strftime(fmt)] for the directives [%Y %m %d %H %M %S]. *)
Fixpoint strftime (fmt : string) (t : datetime) : string :=
  match fmt with
  | EmptyString => EmptyString
  | String "%" (String c rest) => directive c t ++ strftime rest t
  | String c rest => String c (strftime rest t)
  end.

End Datetime.

(** ** Earth Engine client objects

    The [ee] client builds expression graphs and evaluates nothing until
    [getInfo] or [getThumbURL] sends a graph to the service; the graphs are
    the values here. *)

Module EE.
Import Float64 Py.

Inductive Geometry : Type :=
| Point (lon lat : float)
| Buffer (g : Geometry) (distance : Z)
| Bounds (g : Geometry).

Inductive ImageCollection : Type :=
| Collection (id : string)
| FilterBounds (c : ImageCollection) (g : Geometry)
| FilterDate (c : ImageCollection) (start stop : string)
| Select (c : ImageCollection) (band : string).

Inductive Image : Type :=
| Median (c : ImageCollection)
| Mean (c : ImageCollection)
| Multiply (i : Image) (k : float)
| Subtract (i : Image) (k : float)
| FocalMean (i : Image) (radius : Z) (units : string)
| Clip (i : Image) (g : Geometry).

Inductive Reducer : Type := ReducerMean.

Record ThumbParams : Type := {
  region : Geometry;
  dimensions : Z;
  format : string;
  vis_min : Z;
  vis_max : Z;
  palette : list string
}.

(** The data set a collection expression filters. *)
Fixpoint collection_id (c : ImageCollection) : string :=
  match c with
  | Collection id => id
  | FilterBounds c' _ | FilterDate c' _ _ | Select c' _ => collection_id c'
  end.

(** One derivation step applied to a raster, outermost last. *)
Inductive Step : Type :=
| StepMedian
| StepMean
| StepMultiply (k : float)
| StepSubtract (k : float)
| StepFocalMean (radius : Z) (units : string)
| StepClip (g : Geometry).

(** The collection an image is derived from and the steps applied to it,
    in the order in which they are applied. *)
Fixpoint derivation (i : Image) : ImageCollection * list Step :=
  match i with
  | Median c => (c, [StepMedian])
  | Mean c => (c, [StepMean])
  | Multiply i' k => let '(c, l) := derivation i' in (c, (l ++ [StepMultiply k])%list)
  | Subtract i' k => let '(c, l) := derivation i' in (c, (l ++ [StepSubtract k])%list)
  | FocalMean i' r u => let '(c, l) := derivation i' in (c, (l ++ [StepFocalMean r u])%list)
  | Clip i' g => let '(c, l) := derivation i' in (c, (l ++ [StepClip g])%list)
  end.

End EE.

(** ** The handlers' environment: remote services, clock, files *)

Module Service.
Import Float64 Py Datetime EE.

Record Response : Type := {
  status_code : Z;
  content : list Byte.byte
}.

(** What lies outside the process during one request: the clock readings
    ([datetime.utcnow()] and [datetime.now()]), the answers of the Earth
    Engine service and of HTTP GET, each of which may be an exception.  A
    handler asks each question at most once, so a function of the question
    is enough.  The mapping provider's credential, a literal in the source,
    is kept as configuration. *)
Record World : Type := {
  clock_utcnow : datetime;
  clock_now : datetime;
  GOOGLE_MAPS_API_KEY : string;
  ee_size : ImageCollection -> outcome Z;
  ee_thumb : Image -> ThumbParams -> outcome string;
  ee_reduce : Image -> Reducer -> Geometry -> Z -> outcome dict;
  http_get : string -> outcome Response
}.

Inductive event : Type :=
| EvSize (c : ImageCollection) (r : outcome Z)
| EvThumbURL (i : Image) (p : ThumbParams) (r : outcome string)
| EvReduceRegion (i : Image) (red : Reducer) (g : Geometry) (scale : Z)
                 (r : outcome dict)
| EvHttpGet (url : string) (r : outcome Response)
| EvWrite (path : string) (data : list Byte.byte).

Abbreviation files := (gmap string (list Byte.byte)).

(** A handler reads the world, transforms the file system, records what it
    asked and wrote, and returns or raises. *)
Definition M (A : Type) : Type :=
  World -> files -> outcome A * files * list event.

Definition ret {A} (a : A) : M A := fun _ fs => (Returned a, fs, []).

Definition bind {A B} (m : M A) (k : A -> M B) : M B :=
  fun w fs =>
    match m w fs with
    | (Returned a, fs', t) =>
        let '(r, fs'', t') := k a w fs' in (r, fs'', (t ++ t')%list)
    | (Raised e, fs', t) => (Raised e, fs', t)
    end.

Definition lift {A} (o : outcome A) : M A := fun _ fs => (o, fs, []).

Definition ask {A} (f : World -> A) : M A := fun w fs => (Returned (f w), fs, []).

Definition size_getInfo (c : ImageCollection) : M Z :=
  fun w fs => (ee_size w c, fs, [EvSize c (ee_size w c)]).

Definition getThumbURL (i : Image) (p : ThumbParams) : M string :=
  fun w fs => (ee_thumb w i p, fs, [EvThumbURL i p (ee_thumb w i p)]).

Definition reduceRegion_getInfo (i : Image) (red : Reducer) (g : Geometry)
    (scale : Z) : M dict :=
  fun w fs =>
    (ee_reduce w i red g scale, fs,
     [EvReduceRegion i red g scale (ee_reduce w i red g scale)]).

Definition get (url : string) : M Response :=
  fun w fs => (http_get w url, fs, [EvHttpGet url (http_get w url)]).

(** [with open(path, "wb") as f: f.write(data)]: the file is created or
    replaced. *)
Definition write_file (path : string) (data : list Byte.byte) : M unit :=
  fun _ fs => (Returned tt, <[path := data]> fs, [EvWrite path data]).

End Service.

Declare Scope handler_scope.
Delimit Scope handler_scope with handler.
Notation "x <- m ;; k" := (Service.bind m (fun x => k))
  (at level 100, m at next level, right associativity) : handler_scope.
Notation "m ;;; k" := (Service.bind m (fun _ => k))
  (at level 100, right associativity) : handler_scope.

(** ** The handlers of [main.py] *)

Module Main.
Import Float64 Py Datetime EE Service.
Local Open Scope handler_scope.

Definition SAVE_DIR : string := "static/maps".
Definition OUTPUT_DIR : string := "outputs".

Record LocationRequest : Type := { lat : float; lon : float }.

Record Location : Type := { loc_lat : float; loc_lng : float }.

(** *** [get_lst] *)

Definition point_of (data : LocationRequest) : Geometry :=
  Point (lon data) (lat data).

Definition area_of (data : LocationRequest) : Geometry :=
  Bounds (Buffer (point_of data) 50000).

Definition lst_collection (area : Geometry) (start_date end_date : datetime)
    : ImageCollection :=
  FilterDate (FilterBounds (Collection "MODIS/061/MOD11A1") area)
    (strftime "%Y-%m-%d" start_date) (strftime "%Y-%m-%d" end_date).

Definition raw_lst (c : ImageCollection) : Image :=
  Median (Select c "LST_Day_1km").

Definition lst_image (c : ImageCollection) (area : Geometry) : Image :=
  Clip
    (FocalMean
       (Subtract (Multiply (raw_lst c) (of_decimal 2 (-2))) (of_decimal 27315 (-2)))
       1 "pixels")
    area.

Definition srad_collection (area : Geometry) (start_date end_date : datetime)
    : ImageCollection :=
  Select
    (FilterDate (FilterBounds (Collection "ECMWF/ERA5_LAND/DAILY_AGGR") area)
       (strftime "%Y-%m-%d" start_date) (strftime "%Y-%m-%d" end_date))
    "surface_solar_radiation_downwards_sum".

Definition solar_image (c : ImageCollection) (area : Geometry) : Image :=
  Clip (Mean c) area.

Definition thumb_params (area : Geometry) : ThumbParams :=
  {| region := area;
     dimensions := 512;
     format := "png";
     vis_min := 20;
     vis_max := 40;
     palette := ["001137"; "002171"; "02489d"; "2c7bb6"; "abd9e9";
                 "ffffbf"; "fdae61"; "f46d43"; "d73027"; "7f0000"] |}.

Definition lst_filename (data : LocationRequest) (now : datetime) : string :=
  "lst_" ++ float_repr (round_digits (lat data) 6) ++ "_" ++
  float_repr (round_digits (lon data) 6) ++ "_" ++
  strftime "%Y%m%d%H%M%S" now ++ ".png".

(** The [lst] entry of the response: [round(v, 2) if v else None]. *)
Definition lst_field (lst_celsius : pyval) : outcome pyval :=
  if truthy lst_celsius then py_round lst_celsius 2 else Returned PyNone.

(** The [solar_radiation] entry:
    [round(v / 1_000_000, 2) if v else None]. *)
Definition solar_radiation_field (solar_radiation : pyval) : outcome pyval :=
  if truthy solar_radiation
  then obind (py_truediv solar_radiation 1000000) (fun q => py_round q 2)
  else Returned PyNone.

Definition get_lst (data : LocationRequest) : M dict :=
  let point := point_of data in
  let area := area_of data in
  end_date <- ask clock_utcnow ;;
  start_date <- lift (minus_days end_date 200) ;;
  let lst_coll := lst_collection area start_date end_date in
  n <- size_getInfo lst_coll ;;
  if Z.eqb n 0 then
    ret [("error", PyStr "No valid LST data available for this location/date range.")]
  else
    let lst_img := lst_image lst_coll area in
    let srad_coll := srad_collection area start_date end_date in
    let solar_img := solar_image srad_coll area in
    now <- ask clock_now ;;
    let filename := lst_filename data now in
    let path := os_path_join OUTPUT_DIR filename in
    url <- getThumbURL lst_img (thumb_params area) ;;
    lst_value <- reduceRegion_getInfo lst_img ReducerMean point 1000 ;;
    srad_value <- reduceRegion_getInfo solar_img ReducerMean point 1000 ;;
    let lst_celsius := dict_get lst_value "LST_Day_1km" in
    let solar_radiation :=
      dict_get srad_value "surface_solar_radiation_downwards_sum" in
    response <- get url ;;
    if Z.eqb (status_code response) 200 then
      (write_file path (content response) ;;;
       lst <- lift (lst_field lst_celsius) ;;
       sr <- lift (solar_radiation_field solar_radiation) ;;
       ret [("message", PyStr "LST image saved.");
            ("path", PyStr path);
            ("url", PyStr url);
            ("lst", lst);
            ("solar_radiation", sr)])
    else
      ret [("error", PyStr "Failed to fetch image");
           ("status", PyInt (status_code response))].

(** *** [get_street_view] and [get_hybrid_map] *)

Definition coordinate_text (x : float) : string :=
  replace_char "." "_" (float_repr x).

Definition street_view_filename (loc : Location) : string :=
  "streetview_" ++ coordinate_text (loc_lat loc) ++ "_" ++
  coordinate_text (loc_lng loc) ++ ".jpg".

Definition hybrid_map_filename (loc : Location) : string :=
  "hybridmap_" ++ coordinate_text (loc_lat loc) ++ "_" ++
  coordinate_text (loc_lng loc) ++ ".jpg".

Definition street_view_url (key : string) (loc : Location) : string :=
  "https://maps.googleapis.com/maps/api/streetview" ++
  "?size=600x400" ++
  "&location=" ++ float_repr (loc_lat loc) ++ "," ++ float_repr (loc_lng loc) ++
  "&heading=90&pitch=0" ++
  "&key=" ++ key.

Definition hybrid_url (key : string) (loc : Location) : string :=
  "https://maps.googleapis.com/maps/api/staticmap" ++
  "?center=" ++ float_repr (loc_lat loc) ++ "," ++ float_repr (loc_lng loc) ++
  "&zoom=18" ++
  "&size=640x640" ++
  "&scale=2" ++
  "&maptype=hybrid" ++
  "&markers=color:red%7Clabel:%7C" ++
  float_repr (loc_lat loc) ++ "," ++ float_repr (loc_lng loc) ++
  "&key=" ++ key.

Definition get_street_view (loc : Location) : M dict :=
  key <- ask GOOGLE_MAPS_API_KEY ;;
  response <- get (street_view_url key loc) ;;
  if negb (Z.eqb (status_code response) 200) then
    ret [("error", PyStr "Could not fetch Street View image")]
  else
    let filepath := os_path_join SAVE_DIR (street_view_filename loc) in
    (write_file filepath (content response) ;;;
     ret [("message", PyStr "Street View image saved");
          ("file_path", PyStr filepath)]).

Definition get_hybrid_map (loc : Location) : M dict :=
  key <- ask GOOGLE_MAPS_API_KEY ;;
  response <- get (hybrid_url key loc) ;;
  if negb (Z.eqb (status_code response) 200) then
    ret [("error", PyStr "Could not fetch satellite image")]
  else
    let filepath := os_path_join SAVE_DIR (hybrid_map_filename loc) in
    (write_file filepath (content response) ;;;
     ret [("message", PyStr "Hybrid satellite image saved");
          ("file_path", PyStr filepath)]).

(** *** [calculate_teg_plan] *)

Definition CO2_PER_KWH_KG : float := of_decimal 7 (-1).
Definition CARBON_CREDIT_PER_KG : float := nearest 1 1000.
Definition TARIFF_MIN : float := of_decimal 218 (-3).
Definition TARIFF_MAX : float := of_decimal 571 (-3).

Record TEGPlanInput : Type := {
  num_tegs : Z;
  energy_per_module_wh : float;
  cost_per_module_rm : float
}.

Definition savings_range_text (min_savings_rm max_savings_rm : float) : string :=
  "RM " ++ float_repr (round_digits min_savings_rm 2) ++ " - RM " ++
  float_repr (round_digits max_savings_rm 2).

Definition calculate_teg_plan (data : TEGPlanInput) : M dict :=
  total_energy_wh <-
    lift (int_mul_float (num_tegs data) (energy_per_module_wh data)) ;;
  let total_energy_kwh := fdiv total_energy_wh (of_Z 1000) in
  let co2_saved_kg := fmul total_energy_kwh CO2_PER_KWH_KG in
  let carbon_credits := fmul co2_saved_kg CARBON_CREDIT_PER_KG in
  let min_savings_rm := fmul total_energy_kwh TARIFF_MIN in
  let max_savings_rm := fmul total_energy_kwh TARIFF_MAX in
  ret [("Total Energy Generated (Wh/day)", PyFloat total_energy_wh);
       ("Total Energy (kWh/day)", PyFloat (round_digits total_energy_kwh 3));
       ("Number of TEG Modules", PyInt (num_tegs data));
       ("CO2 Saved (kg/day)", PyFloat (round_digits co2_saved_kg 3));
       ("Carbon Credits Earned per Day", PyFloat (round_digits carbon_credits 4));
       ("Daily Energy Cost Savings (RM Range)",
        PyStr (savings_range_text min_savings_rm max_savings_rm))].

End Main.

(** ** Runs of a handler and what can be observed of them *)

Module Run.
Import Float64 Py Datetime EE Service Main.

Definition result {A} (x : outcome A * files * list event) : outcome A := x.1.1.
Definition files_after {A} (x : outcome A * files * list event) : files := x.1.2.
Definition trace {A} (x : outcome A * files * list event) : list event := x.2.

Definition wrote (t : list event) : Prop := exists p d, In (EvWrite p d) t.

Definition MODIS_LST : string := "MODIS/061/MOD11A1".
Definition ERA5_LAND : string := "ECMWF/ERA5_LAND/DAILY_AGGR".
Definition LST_BAND : string := "LST_Day_1km".
Definition SRAD_BAND : string := "surface_solar_radiation_downwards_sum".

(** The data set an image is derived from. *)
Definition dataset (i : Image) : string := collection_id (fst (derivation i)).

(** An entry of a dict, [None] when the key is absent. *)
Fixpoint dict_lookup (d : dict) (k : string) : option pyval :=
  match d with
  | [] => None
  | (k', v) :: rest => if String.eqb k' k then Some v else dict_lookup rest k
  end.

(** The value the service answered for [band] when the run sampled a raster
    of data set [id]. *)
Fixpoint sample_of (id band : string) (t : list event) : option pyval :=
  match t with
  | [] => None
  | EvReduceRegion i _ _ _ (Returned v) :: rest =>
      if String.eqb (dataset i) id then Some (dict_get v band)
      else sample_of id band rest
  | _ :: rest => sample_of id band rest
  end.

Definition lst_sample (t : list event) : option pyval :=
  sample_of MODIS_LST LST_BAND t.

Definition radiation_sample (t : list event) : option pyval :=
  sample_of ERA5_LAND SRAD_BAND t.

Definition NO_DATA : dict :=
  [("error", PyStr "No valid LST data available for this location/date range.")].

Definition saved (d : dict) : Prop :=
  dict_lookup d "message" = Some (PyStr "LST image saved.").

(** The steps of the temperature raster, in order of application. *)
Definition TEMPERATURE_STEPS (area : Geometry) : list Step :=
  [StepMedian;
   StepMultiply (of_decimal 2 (-2));
   StepSubtract (of_decimal 27315 (-2));
   StepFocalMean 1 "pixels";
   StepClip area].

Definition RADIATION_STEPS (area : Geometry) : list Step :=
  [StepMean; StepClip area].

(** The same world with another answer to size queries. *)
Definition with_ee_size (w : World) (sz : ImageCollection -> outcome Z) : World :=
  {| clock_utcnow := clock_utcnow w;
     clock_now := clock_now w;
     GOOGLE_MAPS_API_KEY := GOOGLE_MAPS_API_KEY w;
     ee_size := sz;
     ee_thumb := ee_thumb w;
     ee_reduce := ee_reduce w;
     http_get := http_get w |}.

Definition street_view_path (loc : Location) : string :=
  os_path_join SAVE_DIR (street_view_filename loc).

Definition hybrid_map_path (loc : Location) : string :=
  os_path_join SAVE_DIR (hybrid_map_filename loc).

Definition lst_path (data : LocationRequest) (now : datetime) : string :=
  os_path_join OUTPUT_DIR (lst_filename data now).

Definition TIMESTAMP : string := "%Y%m%d%H%M%S".

(** Exact comparisons on floats: [|x| <= b], and [x >= 0] as Python
    evaluates it ([-0.0 >= 0] holds, NaN compares false). *)
Definition within (x : float) (b : Z) : bool :=
  match x with
  | S754_zero _ => true
  | S754_finite _ m e => let '(n, d) := magnitude m e in n <=? b * d
  | _ => false
  end.

Definition non_negative (x : float) : bool :=
  match x with
  | S754_zero _ => true
  | S754_finite s _ _ | S754_infinity s => negb s
  | S754_nan => false
  end.

Definition is_finite (x : float) : bool :=
  match x with
  | S754_zero _ | S754_finite _ _ _ => true
  | _ => false
  end.

Definition is_number (v : pyval) : bool :=
  match v with PyInt _ | PyFloat _ => true | _ => false end.

Definition lst_in_range (v : pyval) : bool :=
  match v with
  | PyFloat x => within x 60
  | PyInt z => (-60 <=? z) && (z <=? 60)
  | _ => false
  end.

Definition radiation_non_negative (v : pyval) : bool :=
  match v with
  | PyFloat x => non_negative x
  | PyInt z => 0 <=? z
  | _ => false
  end.

(** The pairing the response is expected to satisfy: both entries null, or
    both finite floats with the temperature in -60..60 and the radiation
    non-negative. *)
Definition both_null_or_both_plausible (lst sr : pyval) : bool :=
  match lst, sr with
  | PyNone, PyNone => true
  | PyFloat x, PyFloat y =>
      is_finite x && is_finite y && within x 60 && non_negative y
  | _, _ => false
  end.

(** The worked example of the calculator as it is expected to read. *)
Definition worked_example (d : dict) : bool :=
  match dict_lookup d "Total Energy Generated (Wh/day)",
        dict_lookup d "Total Energy (kWh/day)",
        dict_lookup d "CO2 Saved (kg/day)",
        dict_lookup d "Carbon Credits Earned per Day",
        dict_lookup d "Daily Energy Cost Savings (RM Range)" with
  | Some (PyFloat wh), Some (PyFloat kwh), Some (PyFloat co2),
    Some (PyFloat credits), Some (PyStr range) =>
      float_eqb wh (of_decimal 500 0) && float_eqb kwh (of_decimal 5 (-1)) &&
      float_eqb co2 (of_decimal 35 (-2)) &&
      float_eqb credits (of_decimal 35 (-5)) &&
      String.eqb range "RM 0.109 - RM 0.2855"
  | _, _, _, _, _ => false
  end.

(** The kind of an event: which call it is and, for a call to Earth Engine,
    the data set it is about; what was asked beyond that and what was
    answered are left out. *)
Inductive event_kind : Type :=
| KSize (id : string)
| KThumb (id : string)
| KReduce (id : string)
| KGet
| KWrite.

Definition kind_of (e : event) : event_kind :=
  match e with
  | EvSize c _ => KSize (collection_id c)
  | EvThumbURL i _ _ => KThumb (dataset i)
  | EvReduceRegion i _ _ _ _ => KReduce (dataset i)
  | EvHttpGet _ _ => KGet
  | EvWrite _ _ => KWrite
  end.

(** The order in which [get_lst] contacts the services and writes: the size
    of the temperature collection, the thumbnail of the temperature raster,
    the temperature sample, the radiation sample, the GET, the write. *)
Definition GET_LST_ORDER : list event_kind :=
  [KSize MODIS_LST; KThumb MODIS_LST; KReduce MODIS_LST; KReduce ERA5_LAND;
   KGet; KWrite].

(** The order of the two map endpoints. *)
Definition MAP_ORDER : list event_kind := [KGet; KWrite].

(** Whether the character [c] occurs in [s]. *)
Fixpoint has_char (c : ascii) (s : string) : bool :=
  match s with
  | EmptyString => false
  | String a r => Ascii.eqb a c || has_char c r
  end.

(** The opposite of a number; other values are left as they are. *)
Definition opposite (v : pyval) : pyval :=
  match v with
  | PyFloat x => PyFloat (SFopp x)
  | PyInt z => PyInt (- z)
  | _ => v
  end.

Definition RANGE_KEY : string := "Daily Energy Cost Savings (RM Range)".

(** The sign bit of a float ([false] for NaN). *)
Definition sign_bit (x : float) : bool :=
  match x with
  | S754_zero s | S754_infinity s | S754_finite s _ _ => s
  | S754_nan => false
  end.

(** The number of days of month [m] of year [y]. *)
Definition days_in_month (y m : Z) : Z :=
  if Z.eqb m 2 && is_leap y then 29 else DAYS_IN_MONTH m.

(** A day of the proleptic Gregorian calendar, from year 1 on. *)
Definition calendar_day (y m d : Z) : bool :=
  (1 <=? y) && (1 <=? m) && (m <=? 12) && (1 <=? d) && (d <=? days_in_month y m).

(** What the constructor of [datetime] accepts as a date. *)
Definition valid_date (t : datetime) : bool :=
  calendar_day (year t) (month t) (day t) && (year t <=? 9999).

Definition toordinal (t : datetime) : Z :=
  ymd2ord (year t) (month t) (day t).

(** [ord2ymd] gives a calendar day whose ordinal is [o]. *)
Definition ordinal_round_trip (o : Z) : bool :=
  let '(y, m, d) := ord2ymd o in
  calendar_day y m d && Z.eqb (ymd2ord y m d) o.

(** The month and day of the [n]-th day (from 0) of a year, as the last
    lines of [ord2ymd] compute them. *)
Definition month_day (n : Z) (leapyear : bool) : Z * Z :=
  let m := Z.shiftr (n + 50) 5 in
  let preceding := DAYS_BEFORE_MONTH m + (if (2 <? m) && leapyear then 1 else 0) in
  if n <? preceding then
    let m' := m - 1 in
    let preceding' :=
      preceding - (DAYS_IN_MONTH m' + (if Z.eqb m' 2 && leapyear then 1 else 0)) in
    (m', n - preceding' + 1)
  else (m, n - preceding + 1).

Definition month_day_ok (leapyear : bool) (n : Z) : bool :=
  let '(m, d) := month_day n leapyear in
  (1 <=? m) && (m <=? 12) && (1 <=? d) &&
  (d <=? DAYS_IN_MONTH m + (if Z.eqb m 2 && leapyear then 1 else 0)) &&
  Z.eqb (DAYS_BEFORE_MONTH m + (if (2 <? m) && leapyear then 1 else 0) + d) (n + 1).

(** [f] holds of the [n] integers from [o] on. *)
Fixpoint all_from (f : Z -> bool) (o : Z) (n : nat) : bool :=
  match n with
  | O => true
  | S n' => if f o then all_from f (o + 1) n' else false
  end.

(** The dates a collection expression is filtered to. *)
Fixpoint window (c : ImageCollection) : option (string * string) :=
  match c with
  | Collection _ => None
  | FilterDate _ start stop => Some (start, stop)
  | FilterBounds c' _ | Select c' _ => window c'
  end.

(** The collection an event asks the service about. *)
Definition collection_of (e : event) : option ImageCollection :=
  match e with
  | EvSize c _ => Some c
  | EvThumbURL i _ _ | EvReduceRegion i _ _ _ _ => Some (fst (derivation i))
  | _ => None
  end.

Definition DATE : string := "%Y-%m-%d".

End Run.

(** ** Concrete worlds and requests *)

Module Scenario.
Import Float64 Py Datetime EE Service Main Run.

Definition request_time : datetime :=
  {| year := 2024; month := 5; day := 6; hour := 7; minute := 8; second := 9 |}.

Definition a_second_later : datetime :=
  {| year := 2024; month := 5; day := 6; hour := 7; minute := 8; second := 10 |}.

Definition kuala_lumpur : LocationRequest :=
  {| lat := of_decimal 3139 (-3); lon := of_decimal 101686 (-3) |}.

Definition kl_tower : Location :=
  {| loc_lat := of_decimal 3152815 (-6); loc_lng := of_decimal 101703651 (-6) |}.

Definition thumb_url : string :=
  "https://earthengine.googleapis.com/v1/thumbnails/0a1b:getPixels".

Definition image_bytes : list Byte.byte := [Byte.x89; Byte.x50; Byte.x4e; Byte.x47].

Definition other_bytes : list Byte.byte := [Byte.xff; Byte.xd8; Byte.xff].

(** A service in which the temperature collection has [lst_size] images and
    the radiation collection [srad_size], the two samples at the point are
    [lst] and [srad], and every GET answers [status] with body [body]. *)
Definition world (lst_size srad_size : Z) (lst srad : pyval) (status : Z)
    (body : list Byte.byte) : World :=
  {| clock_utcnow := request_time;
     clock_now := request_time;
     GOOGLE_MAPS_API_KEY := "KEY";
     ee_size := fun c =>
       Returned (if String.eqb (collection_id c) MODIS_LST then lst_size
                 else srad_size);
     ee_thumb := fun _ _ => Returned thumb_url;
     ee_reduce := fun i _ _ _ =>
       Returned (if String.eqb (dataset i) MODIS_LST then [(LST_BAND, lst)]
                 else [(SRAD_BAND, srad)]);
     http_get := fun _ => Returned {| status_code := status; content := body |} |}.

Definition warm : pyval := PyFloat (of_decimal 3146 (-2)).
Definition sunny : pyval := PyFloat (of_decimal 18234567 0).

Definition clear_day : World := world 187 200 warm sunny 200 image_bytes.
Definition no_images : World := world 0 200 warm sunny 200 image_bytes.
Definition thumbnail_gone : World := world 187 200 warm sunny 404 image_bytes.
Definition masked_pixel : World := world 187 200 PyNone sunny 200 image_bytes.
Definition hot_desert : World :=
  world 187 200 (PyFloat (of_decimal 707 (-1))) sunny 200 image_bytes.
Definition freezing_point : World :=
  world 187 200 (PyFloat (S754_zero false)) sunny 200 image_bytes.
Definition polar_night : World :=
  world 187 200 warm (PyInt 0) 200 image_bytes.
Definition later_reply : World := world 187 200 warm sunny 200 other_bytes.

Definition radiation_empty (c : ImageCollection) : outcome Z :=
  if String.eqb (collection_id c) MODIS_LST then ee_size clear_day c
  else Returned 0.

Definition small_plan : TEGPlanInput :=
  {| num_tegs := 3;
     energy_per_module_wh := of_decimal 25 (-1);
     cost_per_module_rm := of_decimal 1 0 |}.

Definition worked_plan : TEGPlanInput :=
  {| num_tegs := 100;
     energy_per_module_wh := of_decimal 5 0;
     cost_per_module_rm := of_decimal 2 0 |}.

Definition huge_plan : TEGPlanInput :=
  {| num_tegs := 2 ^ 1024;
     energy_per_module_wh := of_decimal 1 0;
     cost_per_module_rm := of_decimal 2 0 |}.

Definition ninety_modules : TEGPlanInput :=
  {| num_tegs := 90;
     energy_per_module_wh := of_decimal 250 0;
     cost_per_module_rm := of_decimal 2 0 |}.

Definition text_sample : World :=
  world 187 200 (PyStr "n/a") sunny 200 image_bytes.

Definition returned_plan : TEGPlanInput :=
  {| num_tegs := -3;
     energy_per_module_wh := of_decimal 25 (-1);
     cost_per_module_rm := of_decimal 1 0 |}.

Definition no_modules : TEGPlanInput :=
  {| num_tegs := 0;
     energy_per_module_wh := SFopp (of_decimal 5 0);
     cost_per_module_rm := of_decimal 2 0 |}.

(** A point less than a metre from [kuala_lumpur]. *)
Definition next_door : LocationRequest :=
  {| lat := of_decimal 31390004 (-7); lon := of_decimal 1016859998 (-7) |}.

(** A coordinate whose two components lie half-way between two 16-digit
    decimals: 8 + 3/65536 and 16 + 3/65536. *)
Definition half_way : Location :=
  {| loc_lat := nearest 524291 65536; loc_lng := nearest 1048579 65536 |}.

(** A plan whose lower savings bound is 127567763503545.375 exactly. *)
Definition tie_plan : TEGPlanInput :=
  {| num_tegs := 746022687658;
     energy_per_module_wh := of_decimal 7843906583022645 (-10);
     cost_per_module_rm := of_decimal 1 0 |}.

End Scenario.

(** ** Properties *)

Module Properties.
Import Float64 Py Datetime EE Service Main Run Scenario.

(** *** Known values of the Python built-ins *)

Example round_half_to_even_on_the_binary_value :
  round_digits (of_decimal 2675 (-3)) 2 = of_decimal 267 (-2) /\
  round_digits (of_decimal 125 (-3)) 2 = of_decimal 12 (-2) /\
  round_digits (of_decimal 25 (-1)) 0 = of_decimal 2 0 /\
  round_digits (of_decimal 35 (-1)) 0 = of_decimal 4 0.
Proof. repeat split; vm_compute; reflexivity. Qed.

Example repr_is_shortest_round_trip :
  float_repr (of_decimal 1 (-1)) = "0.1" /\
  float_repr (fmul (of_decimal 1 (-1)) (of_decimal 3 0)) = "0.30000000000000004" /\
  float_repr (of_decimal 1 16) = "1e+16" /\
  float_repr (of_decimal 1 (-5)) = "1e-05" /\
  float_repr (of_decimal 1 (-4)) = "0.0001" /\
  float_repr (of_Z (2 ^ 53 + 1)) = "9007199254740992.0" /\
  float_repr (S754_zero true) = "-0.0".
Proof. repeat split; vm_compute; reflexivity. Qed.

(** Half-way between two shortest decimals [repr] takes the one whose last
    digit is even. *)
Example repr_rounds_half_to_even :
  float_repr (nearest 524291 65536) = "8.000045776367188" /\
  float_repr (nearest 524289 65536) = "8.000015258789062" /\
  float_repr (nearest 127567763503545375 1000) = "127567763503545.38" /\
  street_view_path half_way =
    "static/maps/streetview_8_000045776367188_16_000045776367188.jpg" /\
  dict_lookup
    (match result (calculate_teg_plan tie_plan clear_day ∅) with
     | Returned d => d
     | Raised _ => []
     end) RANGE_KEY =
    Some (PyStr "RM 127567763503545.38 - RM 334133912662956.0").
Proof. repeat split; vm_compute; reflexivity. Qed.

Example int_to_float_overflows_at_2_1024 :
  is_infinite (of_Z (2 ^ 1024 - 2 ^ 970 - 1)) = false /\
  is_infinite (of_Z (2 ^ 1024 - 2 ^ 970)) = true.
Proof. split; vm_compute; reflexivity. Qed.

Example two_hundred_days_before :
  minus_days request_time 200 =
  Returned {| year := 2023; month := 10; day := 19;
              hour := 7; minute := 8; second := 9 |} /\
  strftime "%Y-%m-%d" request_time = "2024-05-06" /\
  strftime TIMESTAMP request_time = "20240506070809".
Proof. repeat split; vm_compute; reflexivity. Qed.

Ltac unfold_handler :=
  unfold get_lst, get_street_view, get_hybrid_map, calculate_teg_plan,
    bind, ret, lift, ask, size_getInfo, getThumbURL, reduceRegion_getInfo,
    get, write_file, result, files_after, trace, wrote in *.

Ltac split_run :=
  repeat match goal with
         | |- context [match ?o with Returned _ => _ | Raised _ => _ end] =>
             destruct o eqn:?
         | |- context [if ?b then _ else _] => destruct b eqn:?
         | |- context [let '(_, _) := ?p in _] => destruct p eqn:?
         end; cbn [fst snd app] in *.

Ltac trace_cases :=
  cbn [In] in *;
  repeat match goal with
         | H : _ \/ _ |- _ => destruct H
         | H : False |- _ => destruct H
         | H : exists _, _ |- _ => destruct H
         | H : @eq event _ _ |- _ => inversion H; clear H; subst
         end.

(** C3: when the size query of a run answers 0, the query was the one on the
    temperature collection filtered to the area and to the 200 days before
    the clock reading, [get_lst] returns exactly the "No valid LST data"
    body, and the file system is unchanged: the run writes nothing. *)
Theorem get_lst_no_data data w fs c :
  In (EvSize c (Returned 0)) (trace (get_lst data w fs)) ->
  (exists start_date,
      minus_days (clock_utcnow w) 200 = Returned start_date /\
      c = lst_collection (area_of data) start_date (clock_utcnow w)) /\
  result (get_lst data w fs) = Returned NO_DATA /\
  files_after (get_lst data w fs) = fs /\
  ~ wrote (trace (get_lst data w fs)).
Proof.
  unfold_handler. split_run; intros Hin;
    try (trace_cases; congruence);
    try (exfalso; trace_cases; lia).
  trace_cases. repeat split; try reflexivity.
  - eexists; split; reflexivity.
  - intros Hw. trace_cases.
Qed.

Lemma get_lst_no_data_witness :
  result (get_lst kuala_lumpur no_images ∅) = Returned NO_DATA /\
  files_after (get_lst kuala_lumpur no_images ∅) = ∅.
Proof.
  destruct (get_lst_no_data kuala_lumpur no_images ∅
              (lst_collection (area_of kuala_lumpur)
                 {| year := 2023; month := 10; day := 19;
                    hour := 7; minute := 8; second := 9 |}
                 request_time))
    as (_ & Hr & Hf & _).
  - vm_compute. left. reflexivity.
  - split; assumption.
Defined.

(** C4: when the HTTP GET of the thumbnail URL answers a status [s] other
    than 200, [get_lst] returns a body with an "error" entry and
    ["status": s], and the file system is unchanged: the run writes
    nothing. *)
Theorem get_lst_fetch_failed data w fs url resp :
  In (EvHttpGet url (Returned resp)) (trace (get_lst data w fs)) ->
  status_code resp <> 200 ->
  result (get_lst data w fs) =
    Returned [("error", PyStr "Failed to fetch image");
              ("status", PyInt (status_code resp))] /\
  files_after (get_lst data w fs) = fs /\
  ~ wrote (trace (get_lst data w fs)).
Proof.
  unfold_handler. split_run; intros Hin Hs;
    try (exfalso; trace_cases; lia).
  all: trace_cases; repeat split; try reflexivity; intros Hw; trace_cases.
Qed.

Lemma get_lst_fetch_failed_witness :
  result (get_lst kuala_lumpur thumbnail_gone ∅) =
    Returned [("error", PyStr "Failed to fetch image"); ("status", PyInt 404)] /\
  files_after (get_lst kuala_lumpur thumbnail_gone ∅) = ∅.
Proof.
  destruct (get_lst_fetch_failed kuala_lumpur thumbnail_gone ∅ thumb_url
              {| status_code := 404; content := image_bytes |})
    as (Hr & Hf & _).
  - vm_compute. do 4 right. left. reflexivity.
  - discriminate.
  - split; assumption.
Defined.

(** C6: every raster a run sends for rendering, and every raster of the
    temperature data set it samples, is derived from the band-selected
    filtered collection (the one whose size the run checked) by exactly the
    steps median, multiply by 0.02, subtract 273.15, focal mean of radius
    1 pixel, clip to the area, in that order. *)
Theorem get_lst_temperature_pipeline data w fs img :
  (exists p r, In (EvThumbURL img p r) (trace (get_lst data w fs))) \/
  (exists red g sc r,
      In (EvReduceRegion img red g sc r) (trace (get_lst data w fs)) /\
      dataset img = MODIS_LST) ->
  exists c n,
    In (EvSize c n) (trace (get_lst data w fs)) /\
    derivation img = (Select c LST_BAND, TEMPERATURE_STEPS (area_of data)).
Proof.
  unfold_handler. split_run; intros [Hin | Hin];
    try (exfalso; trace_cases; fail);
    destruct Hin as (? & ? & Hin); try destruct Hin as (? & ? & Hin & Hd);
    trace_cases; try discriminate;
    do 2 eexists; (split; [left; reflexivity | reflexivity]).
Qed.

Lemma get_lst_temperature_pipeline_witness :
  exists c n,
    In (EvSize c n) (trace (get_lst kuala_lumpur clear_day ∅)) /\
    derivation
      (lst_image
         (lst_collection (area_of kuala_lumpur)
            {| year := 2023; month := 10; day := 19;
               hour := 7; minute := 8; second := 9 |} request_time)
         (area_of kuala_lumpur)) =
    (Select c LST_BAND, TEMPERATURE_STEPS (area_of kuala_lumpur)).
Proof.
  apply (get_lst_temperature_pipeline kuala_lumpur clear_day ∅).
  left. exists (thumb_params (area_of kuala_lumpur)), (Returned thumb_url).
  vm_compute. right. left. reflexivity.
Defined.

(** C7: the only size query of a run is the one on the temperature
    collection, and the run is the same whatever the service would answer
    about the size of any other collection, the radiation collection
    included: its emptiness is never looked at. *)
Theorem get_lst_guard_temperature_only data w fs sz :
  (forall c, collection_id c = MODIS_LST -> sz c = ee_size w c) ->
  get_lst data (with_ee_size w sz) fs = get_lst data w fs /\
  (forall c r, In (EvSize c r) (trace (get_lst data w fs)) ->
               collection_id c = MODIS_LST).
Proof.
  intros Hsz. split.
  - unfold_handler. cbn [clock_utcnow clock_now ee_size ee_thumb ee_reduce
                          http_get with_ee_size].
    destruct (minus_days (clock_utcnow w) 200) as [start_date|]; [|reflexivity].
    rewrite Hsz by reflexivity.
    repeat (cbv beta;
            cbn [clock_utcnow clock_now ee_size ee_thumb ee_reduce http_get
                 with_ee_size];
            match goal with
            | |- context [match ?o with Returned _ => _ | Raised _ => _ end] =>
                destruct o
            | |- context [if ?b then _ else _] => destruct b
            end);
      reflexivity.
  - unfold_handler. split_run; intros c r Hin; trace_cases; reflexivity.
Qed.

Lemma get_lst_guard_temperature_only_witness :
  get_lst kuala_lumpur (with_ee_size clear_day radiation_empty) ∅ =
  get_lst kuala_lumpur clear_day ∅.
Proof.
  apply (get_lst_guard_temperature_only kuala_lumpur clear_day ∅ radiation_empty).
  intros c Hc. unfold radiation_empty. rewrite Hc. reflexivity.
Defined.

(** With an empty radiation collection the run still samples the radiation
    raster and answers with the saved image. *)
Example get_lst_radiation_empty_still_sampled :
  ee_size (with_ee_size clear_day radiation_empty)
    (srad_collection (area_of kuala_lumpur) request_time request_time) =
    Returned 0 /\
  radiation_sample
    (trace (get_lst kuala_lumpur (with_ee_size clear_day radiation_empty) ∅)) =
    Some sunny /\
  dict_lookup
    (match result (get_lst kuala_lumpur (with_ee_size clear_day radiation_empty) ∅)
     with Returned d => d | Raised _ => [] end) "message" =
    Some (PyStr "LST image saved.").
Proof. vm_compute. repeat split; reflexivity. Qed.

(** The shape of a run that answers with the saved image. *)
Lemma get_lst_saved data w fs d :
  result (get_lst data w fs) = Returned d ->
  saved d ->
  exists l s x y url body,
    lst_sample (trace (get_lst data w fs)) = Some l /\
    radiation_sample (trace (get_lst data w fs)) = Some s /\
    lst_field l = Returned x /\
    solar_radiation_field s = Returned y /\
    d = [("message", PyStr "LST image saved.");
         ("path", PyStr (lst_path data (clock_now w)));
         ("url", PyStr url);
         ("lst", x);
         ("solar_radiation", y)] /\
    In (EvWrite (lst_path data (clock_now w)) body) (trace (get_lst data w fs)) /\
    files_after (get_lst data w fs) = <[lst_path data (clock_now w) := body]> fs.
Proof.
  unfold saved. unfold_handler. split_run; intros Hr Hs;
    inversion Hr; subst; try discriminate.
  do 6 eexists. repeat split; try eassumption; try reflexivity.
  do 5 right. left. reflexivity.
Qed.

Lemma zero_is_falsy (sign : bool) : truthy (PyFloat (S754_zero sign)) = false.
Proof. reflexivity. Qed.

(** C9: in a response with the saved image, a sampled temperature that is
    falsy (0.0 in particular) is reported as a null [lst], and a sampled
    radiation that is falsy as a null [solar_radiation]; each entry is
    decided by its own sample alone. *)
Theorem get_lst_falsy_sample_is_null data w fs d :
  result (get_lst data w fs) = Returned d ->
  saved d ->
  (forall l, lst_sample (trace (get_lst data w fs)) = Some l ->
             truthy l = false -> dict_lookup d "lst" = Some PyNone) /\
  (forall s, radiation_sample (trace (get_lst data w fs)) = Some s ->
             truthy s = false ->
             dict_lookup d "solar_radiation" = Some PyNone) /\
  (forall sign, lst_sample (trace (get_lst data w fs)) =
                  Some (PyFloat (S754_zero sign)) ->
                dict_lookup d "lst" = Some PyNone) /\
  (forall sign, radiation_sample (trace (get_lst data w fs)) =
                  Some (PyFloat (S754_zero sign)) ->
                dict_lookup d "solar_radiation" = Some PyNone).
Proof.
  intros Hr Hs.
  destruct (get_lst_saved data w fs d Hr Hs)
    as (l & s & x & y & url & body & Hl & Hrad & Hx & Hy & -> & _).
  assert (Hlst : forall l', lst_sample (trace (get_lst data w fs)) = Some l' ->
                            truthy l' = false ->
                            dict_lookup
                              [("message", PyStr "LST image saved.");
                               ("path", PyStr (lst_path data (clock_now w)));
                               ("url", PyStr url); ("lst", x);
                               ("solar_radiation", y)] "lst" = Some PyNone).
  { intros l' Hl' Hf. rewrite Hl in Hl'. injection Hl' as <-.
    unfold lst_field in Hx. rewrite Hf in Hx. injection Hx as <-. reflexivity. }
  assert (Hsr : forall s', radiation_sample (trace (get_lst data w fs)) = Some s' ->
                           truthy s' = false ->
                           dict_lookup
                             [("message", PyStr "LST image saved.");
                              ("path", PyStr (lst_path data (clock_now w)));
                              ("url", PyStr url); ("lst", x);
                              ("solar_radiation", y)] "solar_radiation" =
                             Some PyNone).
  { intros s' Hs' Hf. rewrite Hrad in Hs'. injection Hs' as <-.
    unfold solar_radiation_field in Hy. rewrite Hf in Hy.
    injection Hy as <-. reflexivity. }
  repeat split; intros; eauto using zero_is_falsy.
Qed.

(** At the freezing point the temperature is reported as null while the
    radiation of the same response is a number. *)
Lemma get_lst_falsy_sample_is_null_witness :
  dict_lookup
    (match result (get_lst kuala_lumpur freezing_point ∅) with
     | Returned d => d
     | Raised _ => []
     end) "lst" = Some PyNone /\
  dict_lookup
    (match result (get_lst kuala_lumpur freezing_point ∅) with
     | Returned d => d
     | Raised _ => []
     end) "solar_radiation" = Some (PyFloat (of_decimal 1823 (-2))).
Proof.
  split; [|vm_compute; reflexivity].
  destruct (result (get_lst kuala_lumpur freezing_point ∅)) as [d|] eqn:Hr;
    [|vm_compute in Hr; discriminate].
  apply (get_lst_falsy_sample_is_null kuala_lumpur freezing_point ∅ d Hr)
    with (sign := false).
  - vm_compute in Hr. injection Hr as <-. reflexivity.
  - vm_compute. reflexivity.
Defined.

(** The converse case: the radiation is null and the temperature is not. *)
Example get_lst_null_radiation_only :
  result (get_lst kuala_lumpur polar_night ∅) =
  Returned [("message", PyStr "LST image saved.");
            ("path", PyStr "outputs/lst_3.139_101.686_20240506070809.png");
            ("url", PyStr thumb_url);
            ("lst", PyFloat (of_decimal 3146 (-2)));
            ("solar_radiation", PyNone)].
Proof. vm_compute. reflexivity. Qed.

(** C10 (as the code has it): in a response with the saved image the
    [solar_radiation] entry is decided by the sampled radiation alone: a
    float or int sample other than zero is reported divided by 1,000,000
    and then rounded to 2 decimals, and a sample of None or zero as null,
    not as 0.0.  The [lst] entry is the sampled temperature rounded to 2
    decimals and not scaled (an int is reported as it is), and null for
    None or zero.  The radiation raster that was sampled is the clipped
    temporal mean: its derivation has no scaling step. *)
Theorem get_lst_radiation_scaled_on_report data w fs d :
  result (get_lst data w fs) = Returned d ->
  saved d ->
  (forall s, radiation_sample (trace (get_lst data w fs)) = Some s ->
     dict_lookup d "solar_radiation" =
       Some match s with
            | PyNone | PyInt 0 | PyFloat (S754_zero _) | PyStr _ => PyNone
            | PyInt z => PyFloat (round_digits (nearest z 1000000) 2)
            | PyFloat x => PyFloat (round_digits (fdiv x (of_Z 1000000)) 2)
            end /\
     (truthy s = true ->
      is_number s = true /\
      exists q y, py_truediv s 1000000 = Returned q /\
                  py_round q 2 = Returned y /\
                  dict_lookup d "solar_radiation" = Some y)) /\
  (forall l, lst_sample (trace (get_lst data w fs)) = Some l ->
     dict_lookup d "lst" =
       Some match l with
            | PyNone | PyInt 0 | PyFloat (S754_zero _) | PyStr _ => PyNone
            | PyInt z => PyInt z
            | PyFloat x => PyFloat (round_digits x 2)
            end /\
     (truthy l = true ->
      is_number l = true /\
      exists x, py_round l 2 = Returned x /\
                dict_lookup d "lst" = Some x)) /\
  (forall img red g sc r,
      In (EvReduceRegion img red g sc r) (trace (get_lst data w fs)) ->
      dataset img = ERA5_LAND ->
      snd (derivation img) = RADIATION_STEPS (area_of data)).
Proof.
  intros Hr Hs.
  destruct (get_lst_saved data w fs d Hr Hs)
    as (l & s & x & y & url & body & Hl & Hrad & Hx & Hy & -> & _).
  split; [|split].
  - intros s' Hs'. rewrite Hrad in Hs'. injection Hs' as <-.
    unfold solar_radiation_field in Hy. split.
    + cbn [dict_lookup String.eqb Ascii.eqb Bool.eqb].
      destruct s as [ |z|f|t]; cbn [truthy] in Hy.
      * injection Hy as <-. reflexivity.
      * destruct z as [|p|p]; cbn [Z.eqb negb] in Hy.
        -- injection Hy as <-. reflexivity.
        -- unfold py_truediv in Hy.
           destruct (is_infinite (nearest (Z.pos p) 1000000));
             [discriminate|]. injection Hy as <-. reflexivity.
        -- unfold py_truediv in Hy.
           destruct (is_infinite (nearest (Z.neg p) 1000000));
             [discriminate|]. injection Hy as <-. reflexivity.
      * destruct f; injection Hy as <-; reflexivity.
      * destruct (negb (String.eqb t "")); [discriminate|].
        injection Hy as <-. reflexivity.
    + intros Ht. rewrite Ht in Hy. split.
      * destruct s as [ |z|f|t]; try reflexivity; discriminate.
      * destruct (py_truediv s 1000000) as [q|] eqn:Hq; [|discriminate].
        exists q, y. split; [reflexivity | split; [exact Hy | reflexivity]].
  - intros l' Hl'. rewrite Hl in Hl'. injection Hl' as <-.
    unfold lst_field in Hx. split.
    + cbn [dict_lookup String.eqb Ascii.eqb Bool.eqb].
      destruct l as [ |z|f|t]; cbn [truthy] in Hx.
      * injection Hx as <-. reflexivity.
      * destruct z as [|p|p]; cbn [Z.eqb negb] in Hx;
          injection Hx as <-; reflexivity.
      * destruct f; injection Hx as <-; reflexivity.
      * destruct (negb (String.eqb t "")); [discriminate|].
        injection Hx as <-. reflexivity.
    + intros Ht. rewrite Ht in Hx. split.
      * destruct l as [ |z|f|t]; try reflexivity; discriminate.
      * exists x. split; [exact Hx | reflexivity].
  - clear. unfold_handler. split_run; intros img red g sc r Hin Hd;
      trace_cases; try discriminate; reflexivity.
Qed.

Lemma get_lst_radiation_scaled_on_report_witness :
  exists d,
    result (get_lst kuala_lumpur clear_day ∅) = Returned d /\
    dict_lookup d "solar_radiation" = Some (PyFloat (of_decimal 1823 (-2))) /\
    dict_lookup d "lst" = Some (PyFloat (of_decimal 3146 (-2))).
Proof.
  destruct (result (get_lst kuala_lumpur clear_day ∅)) as [d|] eqn:Hr;
    [|vm_compute in Hr; discriminate].
  destruct (get_lst_radiation_scaled_on_report kuala_lumpur clear_day ∅ d Hr)
    as (Hsr & Hlst & _).
  - vm_compute in Hr. injection Hr as <-. reflexivity.
  - exists d. split; [reflexivity|]. split.
    + destruct (Hsr sunny) as (-> & _); vm_compute; reflexivity.
    + destruct (Hlst warm) as (-> & _); vm_compute; reflexivity.
Defined.

(** C10, refuted as stated: a sampled radiation of 0, which divided by
    1,000,000 and rounded is 0.0, is reported as null, and so is a sampled
    temperature of 0.0. *)
Lemma get_lst_scaling_not_as_stated :
  (exists d,
      result (get_lst kuala_lumpur polar_night ∅) = Returned d /\
      saved d /\
      radiation_sample (trace (get_lst kuala_lumpur polar_night ∅)) =
        Some (PyInt 0) /\
      obind (py_truediv (PyInt 0) 1000000) (fun q => py_round q 2) =
        Returned (PyFloat (S754_zero false)) /\
      dict_lookup d "solar_radiation" = Some PyNone) /\
  (exists d,
      result (get_lst kuala_lumpur freezing_point ∅) = Returned d /\
      saved d /\
      lst_sample (trace (get_lst kuala_lumpur freezing_point ∅)) =
        Some (PyFloat (S754_zero false)) /\
      py_round (PyFloat (S754_zero false)) 2 =
        Returned (PyFloat (S754_zero false)) /\
      dict_lookup d "lst" = Some PyNone).
Proof.
  split; eexists; (split; [vm_compute; reflexivity|]);
    repeat split; vm_compute; reflexivity.
Qed.

(** On a clear day: 31.46 degrees are reported as they are, 18234567 J/m2
    as 18.23. *)
Example get_lst_clear_day :
  result (get_lst kuala_lumpur clear_day ∅) =
  Returned [("message", PyStr "LST image saved.");
            ("path", PyStr "outputs/lst_3.139_101.686_20240506070809.png");
            ("url", PyStr thumb_url);
            ("lst", PyFloat (of_decimal 3146 (-2)));
            ("solar_radiation", PyFloat (of_decimal 1823 (-2)))] /\
  files_after (get_lst kuala_lumpur clear_day ∅)
    !! "outputs/lst_3.139_101.686_20240506070809.png" = Some image_bytes.
Proof. split; vm_compute; reflexivity. Qed.

(** *** File names *)

Lemma length_append (a b : string) :
  String.length (a ++ b) = (String.length a + String.length b)%nat.
Proof. induction a as [|c a IH]; simpl; [reflexivity | now rewrite IH]. Qed.

Lemma append_inv_head (a x y : string) : a ++ x = a ++ y -> x = y.
Proof.
  induction a as [|c a IH]; simpl; intros H; [exact H|].
  injection H as H. auto.
Qed.

Lemma append_inv_tail (b x y : string) : x ++ b = y ++ b -> x = y.
Proof.
  revert y. induction x as [|c x IH]; intros [|c' y] H.
  - reflexivity.
  - apply (f_equal String.length) in H.
    change (String.length b = S (String.length (y ++ b))) in H.
    rewrite length_append in H. lia.
  - apply (f_equal String.length) in H.
    change (S (String.length (x ++ b)) = String.length b) in H.
    rewrite length_append in H. lia.
  - change (String c (x ++ b) = String c' (y ++ b)) in H.
    injection H as -> H. f_equal. auto.
Qed.

Lemma lst_path_text data t :
  lst_path data t =
  "outputs/lst_" ++ float_repr (round_digits (lat data) 6) ++ "_" ++
  float_repr (round_digits (lon data) 6) ++ "_" ++
  strftime TIMESTAMP t ++ ".png".
Proof. reflexivity. Qed.

(** The path of the thumbnail determines the text of the clock reading. *)
Lemma lst_path_embeds_timestamp data t1 t2 :
  lst_path data t1 = lst_path data t2 ->
  strftime TIMESTAMP t1 = strftime TIMESTAMP t2.
Proof.
  rewrite !lst_path_text. intros H.
  apply append_inv_head in H. apply append_inv_head in H.
  apply (append_inv_head "_") in H. apply append_inv_head in H.
  apply (append_inv_head "_") in H. apply append_inv_tail in H. exact H.
Qed.

Lemma street_view_written loc w fs p b :
  In (EvWrite p b) (trace (get_street_view loc w fs)) ->
  p = street_view_path loc /\
  result (get_street_view loc w fs) =
    Returned [("message", PyStr "Street View image saved");
              ("file_path", PyStr (street_view_path loc))] /\
  files_after (get_street_view loc w fs) = <[street_view_path loc := b]> fs.
Proof.
  unfold_handler. split_run; intros Hin; trace_cases.
  repeat split; reflexivity.
Qed.

Lemma hybrid_map_written loc w fs p b :
  In (EvWrite p b) (trace (get_hybrid_map loc w fs)) ->
  p = hybrid_map_path loc /\
  result (get_hybrid_map loc w fs) =
    Returned [("message", PyStr "Hybrid satellite image saved");
              ("file_path", PyStr (hybrid_map_path loc))] /\
  files_after (get_hybrid_map loc w fs) = <[hybrid_map_path loc := b]> fs.
Proof.
  unfold_handler. split_run; intros Hin; trace_cases.
  repeat split; reflexivity.
Qed.

Lemma get_lst_written data w fs p b :
  In (EvWrite p b) (trace (get_lst data w fs)) ->
  p = lst_path data (clock_now w).
Proof.
  unfold_handler. split_run; intros Hin; trace_cases; reflexivity.
Qed.

Lemma street_view_writes loc w fs r :
  http_get w (street_view_url (GOOGLE_MAPS_API_KEY w) loc) = Returned r ->
  status_code r = 200 ->
  In (EvWrite (street_view_path loc) (content r))
     (trace (get_street_view loc w fs)) /\
  files_after (get_street_view loc w fs) =
    <[street_view_path loc := content r]> fs.
Proof.
  intros Hget Hs. unfold_handler. rewrite Hget, Hs.
  split; [right; left; reflexivity | reflexivity].
Qed.

Lemma hybrid_map_writes loc w fs r :
  http_get w (hybrid_url (GOOGLE_MAPS_API_KEY w) loc) = Returned r ->
  status_code r = 200 ->
  In (EvWrite (hybrid_map_path loc) (content r))
     (trace (get_hybrid_map loc w fs)) /\
  files_after (get_hybrid_map loc w fs) =
    <[hybrid_map_path loc := content r]> fs.
Proof.
  intros Hget Hs. unfold_handler. rewrite Hget, Hs.
  split; [right; left; reflexivity | reflexivity].
Qed.

Lemma get_lst_writes data w fs start n url lv sv r :
  let area := area_of data in
  let lst_coll := lst_collection area start (clock_utcnow w) in
  let srad_coll := srad_collection area start (clock_utcnow w) in
  minus_days (clock_utcnow w) 200 = Returned start ->
  ee_size w lst_coll = Returned n -> n <> 0 ->
  ee_thumb w (lst_image lst_coll area) (thumb_params area) = Returned url ->
  ee_reduce w (lst_image lst_coll area) ReducerMean (point_of data) 1000 =
    Returned lv ->
  ee_reduce w (solar_image srad_coll area) ReducerMean (point_of data) 1000 =
    Returned sv ->
  http_get w url = Returned r -> status_code r = 200 ->
  In (EvWrite (lst_path data (clock_now w)) (content r))
     (trace (get_lst data w fs)).
Proof.
  cbv zeta. intros Hstart Hsize Hn Hthumb Hl Hsr Hget Hs.
  apply Z.eqb_neq in Hn.
  unfold_handler. rewrite Hstart. cbv beta iota. rewrite Hsize.
  cbv beta iota. rewrite Hn. rewrite Hthumb. cbv beta iota.
  rewrite Hl. cbv beta iota. rewrite Hsr. cbv beta iota.
  rewrite Hget. cbv beta iota. rewrite Hs. cbn [Z.eqb Pos.eqb].
  split_run; cbn [In]; do 5 right; left; reflexivity.
Qed.

(** C8: the file [get_street_view] writes is at a path computed from the
    coordinate alone, and so is the file of [get_hybrid_map]: whenever the
    GET answers 200 the call writes that path, so of two calls for the same
    coordinate the second replaces the file of the first; and no call
    writes any other path.  By contrast [get_lst], when its services answer
    and the GET answers 200, writes a path computed from the coordinate and
    the clock reading, which determines the reading's timestamp text: two
    readings with different timestamps give different paths. *)
Theorem map_image_paths_collide loc w1 w2 fs :
  let sv1 := get_street_view loc w1 fs in
  let sv2 := get_street_view loc w2 (files_after sv1) in
  let hm1 := get_hybrid_map loc w1 fs in
  let hm2 := get_hybrid_map loc w2 (files_after hm1) in
  (forall p1 b1 p2 b2,
      In (EvWrite p1 b1) (trace sv1) -> In (EvWrite p2 b2) (trace sv2) ->
      p1 = street_view_path loc /\ p2 = p1 /\
      result sv1 = result sv2 /\
      files_after sv1 !! p1 = Some b1 /\
      files_after sv2 = <[p1 := b2]> fs) /\
  (forall p1 b1 p2 b2,
      In (EvWrite p1 b1) (trace hm1) -> In (EvWrite p2 b2) (trace hm2) ->
      p1 = hybrid_map_path loc /\ p2 = p1 /\
      result hm1 = result hm2 /\
      files_after hm1 !! p1 = Some b1 /\
      files_after hm2 = <[p1 := b2]> fs) /\
  (forall data w fs' p b t,
      In (EvWrite p b) (trace (get_lst data w fs')) ->
      p = lst_path data (clock_now w) /\
      (lst_path data t = p ->
       strftime TIMESTAMP t = strftime TIMESTAMP (clock_now w))) /\
  (forall r1 r2,
      http_get w1 (street_view_url (GOOGLE_MAPS_API_KEY w1) loc) = Returned r1 ->
      http_get w2 (street_view_url (GOOGLE_MAPS_API_KEY w2) loc) = Returned r2 ->
      status_code r1 = 200 -> status_code r2 = 200 ->
      In (EvWrite (street_view_path loc) (content r1)) (trace sv1) /\
      In (EvWrite (street_view_path loc) (content r2)) (trace sv2) /\
      files_after sv1 = <[street_view_path loc := content r1]> fs /\
      files_after sv2 = <[street_view_path loc := content r2]> fs) /\
  (forall r1 r2,
      http_get w1 (hybrid_url (GOOGLE_MAPS_API_KEY w1) loc) = Returned r1 ->
      http_get w2 (hybrid_url (GOOGLE_MAPS_API_KEY w2) loc) = Returned r2 ->
      status_code r1 = 200 -> status_code r2 = 200 ->
      In (EvWrite (hybrid_map_path loc) (content r1)) (trace hm1) /\
      In (EvWrite (hybrid_map_path loc) (content r2)) (trace hm2) /\
      files_after hm1 = <[hybrid_map_path loc := content r1]> fs /\
      files_after hm2 = <[hybrid_map_path loc := content r2]> fs) /\
  (forall data w fs' start n url lv sv r,
      let area := area_of data in
      let lst_coll := lst_collection area start (clock_utcnow w) in
      let srad_coll := srad_collection area start (clock_utcnow w) in
      minus_days (clock_utcnow w) 200 = Returned start ->
      ee_size w lst_coll = Returned n -> n <> 0 ->
      ee_thumb w (lst_image lst_coll area) (thumb_params area) = Returned url ->
      ee_reduce w (lst_image lst_coll area) ReducerMean (point_of data) 1000 =
        Returned lv ->
      ee_reduce w (solar_image srad_coll area) ReducerMean (point_of data) 1000 =
        Returned sv ->
      http_get w url = Returned r -> status_code r = 200 ->
      In (EvWrite (lst_path data (clock_now w)) (content r))
         (trace (get_lst data w fs'))) /\
  (forall data t1 t2,
      strftime TIMESTAMP t1 <> strftime TIMESTAMP t2 ->
      lst_path data t1 <> lst_path data t2).
Proof.
  cbv zeta.
  split; [|split; [|split; [|split; [|split; [|split]]]]].
  - intros p1 b1 p2 b2 H H0. repeat split.
    + eapply street_view_written; eauto.
    + apply street_view_written in H as (-> & _).
      apply street_view_written in H0 as (-> & _). reflexivity.
    + apply street_view_written in H as (_ & -> & _).
      apply street_view_written in H0 as (_ & -> & _). reflexivity.
    + apply street_view_written in H as (-> & _ & ->).
      apply lookup_insert_eq.
    + apply street_view_written in H as (-> & _ & Hf).
      apply street_view_written in H0 as (_ & _ & ->).
      rewrite Hf. apply insert_insert_eq.
  - intros p1 b1 p2 b2 H H0. repeat split.
    + eapply hybrid_map_written; eauto.
    + apply hybrid_map_written in H as (-> & _).
      apply hybrid_map_written in H0 as (-> & _). reflexivity.
    + apply hybrid_map_written in H as (_ & -> & _).
      apply hybrid_map_written in H0 as (_ & -> & _). reflexivity.
    + apply hybrid_map_written in H as (-> & _ & ->).
      apply lookup_insert_eq.
    + apply hybrid_map_written in H as (-> & _ & Hf).
      apply hybrid_map_written in H0 as (_ & _ & ->).
      rewrite Hf. apply insert_insert_eq.
  - intros data w fs' p b t H. split.
    + eapply get_lst_written; eauto.
    + intros Hp. apply get_lst_written in H as ->.
      apply lst_path_embeds_timestamp in Hp. exact Hp.
  - intros r1 r2 H1 H2 Hs1 Hs2.
    destruct (street_view_writes loc w1 fs r1 H1 Hs1) as (Hw1 & Hf1).
    destruct (street_view_writes loc w2
                (files_after (get_street_view loc w1 fs)) r2 H2 Hs2)
      as (Hw2 & Hf2).
    split; [exact Hw1|]. split; [exact Hw2|]. split; [exact Hf1|].
    rewrite Hf2, Hf1. apply insert_insert_eq.
  - intros r1 r2 H1 H2 Hs1 Hs2.
    destruct (hybrid_map_writes loc w1 fs r1 H1 Hs1) as (Hw1 & Hf1).
    destruct (hybrid_map_writes loc w2
                (files_after (get_hybrid_map loc w1 fs)) r2 H2 Hs2)
      as (Hw2 & Hf2).
    split; [exact Hw1|]. split; [exact Hw2|]. split; [exact Hf1|].
    rewrite Hf2, Hf1. apply insert_insert_eq.
  - intros data w fs' start n url lv sv r. exact (get_lst_writes _ _ _ _ _ _ _ _ _).
  - intros data t1 t2 Hne Heq. apply Hne.
    exact (lst_path_embeds_timestamp data t1 t2 Heq).
Qed.

Lemma map_image_paths_collide_witness :
  street_view_path kl_tower = "static/maps/streetview_3_152815_101_703651.jpg" /\
  files_after
    (get_street_view kl_tower later_reply
       (files_after (get_street_view kl_tower clear_day ∅))) =
  {[street_view_path kl_tower := other_bytes]} /\
  hybrid_map_path kl_tower = "static/maps/hybridmap_3_152815_101_703651.jpg" /\
  files_after
    (get_hybrid_map kl_tower later_reply
       (files_after (get_hybrid_map kl_tower clear_day ∅))) =
  {[hybrid_map_path kl_tower := other_bytes]} /\
  In (EvWrite (lst_path kuala_lumpur request_time) image_bytes)
     (trace (get_lst kuala_lumpur clear_day ∅)) /\
  lst_path kuala_lumpur request_time <> lst_path kuala_lumpur a_second_later.
Proof.
  pose proof (map_image_paths_collide kl_tower clear_day later_reply ∅) as H.
  cbv zeta in H. destruct H as (_ & _ & _ & Hsv & Hhm & Hlst & Hts).
  split; [vm_compute; reflexivity|].
  split.
  { destruct (Hsv {| status_code := 200; content := image_bytes |}
                  {| status_code := 200; content := other_bytes |}
                  eq_refl eq_refl eq_refl eq_refl) as (_ & _ & _ & Hf).
    exact Hf. }
  split; [vm_compute; reflexivity|].
  split.
  { destruct (Hhm {| status_code := 200; content := image_bytes |}
                  {| status_code := 200; content := other_bytes |}
                  eq_refl eq_refl eq_refl eq_refl) as (_ & _ & _ & Hf).
    exact Hf. }
  split.
  { apply (Hlst kuala_lumpur clear_day ∅
             {| year := 2023; month := 10; day := 19;
                hour := 7; minute := 8; second := 9 |}
             187 thumb_url [(LST_BAND, warm)] [(SRAD_BAND, sunny)]
             {| status_code := 200; content := image_bytes |});
      try reflexivity; try (vm_compute; reflexivity).
    discriminate. }
  apply Hts. vm_compute. discriminate.
Defined.

(** Two calls one second apart write two different thumbnails, two calls to
    the hybrid map write one file. *)
Example paths_in_one_process :
  lst_path kuala_lumpur request_time =
    "outputs/lst_3.139_101.686_20240506070809.png" /\
  lst_path kuala_lumpur a_second_later =
    "outputs/lst_3.139_101.686_20240506070810.png" /\
  hybrid_map_path kl_tower = "static/maps/hybridmap_3_152815_101_703651.jpg" /\
  dom (files_after
         (get_hybrid_map kl_tower later_reply
            (files_after (get_hybrid_map kl_tower clear_day ∅)))) =
    {[hybrid_map_path kl_tower]}.
Proof.
  repeat split; vm_compute; reflexivity.
Qed.

(** *** The calculator *)

(** C1 (as the code has it): when [num_tegs] converts to a double, the
    response holds the energy [num_tegs * energy_per_module_wh] as computed,
    the energy in kWh ([/ 1000]) rounded to 3 decimals, the CO2 saved
    ([* 0.7]) rounded to 3 decimals, the carbon credits (CO2 saved times the
    constant [1 / 1000]) rounded to 4 decimals, and the savings range as the
    text ["RM a - RM b"] of the two bounds ([* 0.218], [* 0.571]) rounded to
    2 decimals; [cost_per_module_rm] does not affect the response, no file
    is touched and no service is called. *)
Theorem calculate_teg_plan_computes n e c w fs :
  is_infinite (of_Z n) = false ->
  let total_energy_wh := fmul (of_Z n) e in
  let total_energy_kwh := fdiv total_energy_wh (of_Z 1000) in
  let co2_saved_kg := fmul total_energy_kwh (of_decimal 7 (-1)) in
  let carbon_credits := fmul co2_saved_kg (nearest 1 1000) in
  let plan c' :=
    calculate_teg_plan
      {| num_tegs := n; energy_per_module_wh := e; cost_per_module_rm := c' |} in
  plan c w fs =
    (Returned
       [("Total Energy Generated (Wh/day)", PyFloat total_energy_wh);
        ("Total Energy (kWh/day)", PyFloat (round_digits total_energy_kwh 3));
        ("Number of TEG Modules", PyInt n);
        ("CO2 Saved (kg/day)", PyFloat (round_digits co2_saved_kg 3));
        ("Carbon Credits Earned per Day", PyFloat (round_digits carbon_credits 4));
        ("Daily Energy Cost Savings (RM Range)",
         PyStr ("RM " ++
                float_repr
                  (round_digits (fmul total_energy_kwh (of_decimal 218 (-3))) 2) ++
                " - RM " ++
                float_repr
                  (round_digits (fmul total_energy_kwh (of_decimal 571 (-3))) 2)))],
     fs, []) /\
  (forall c', plan c' w fs = plan c w fs).
Proof.
  intros Hfin. cbv zeta. split; [|reflexivity].
  unfold calculate_teg_plan, bind, lift, ret, int_mul_float.
  cbn [num_tegs energy_per_module_wh]. rewrite Hfin. reflexivity.
Qed.

Lemma calculate_teg_plan_computes_witness :
  result (calculate_teg_plan small_plan clear_day ∅) =
  Returned
    [("Total Energy Generated (Wh/day)", PyFloat (of_decimal 75 (-1)));
     ("Total Energy (kWh/day)", PyFloat (of_decimal 7 (-3)));
     ("Number of TEG Modules", PyInt 3);
     ("CO2 Saved (kg/day)", PyFloat (of_decimal 5 (-3)));
     ("Carbon Credits Earned per Day", PyFloat (S754_zero false));
     ("Daily Energy Cost Savings (RM Range)", PyStr "RM 0.0 - RM 0.0")].
Proof.
  unfold result.
  rewrite (proj1 (calculate_teg_plan_computes 3 (of_decimal 25 (-1))
                    (of_decimal 1 0) clear_day ∅ eq_refl)).
  vm_compute. reflexivity.
Defined.

(** C1, refuted as stated: a module count beyond the range of a double
    makes the handler raise, and for 90 modules of 250 Wh the reported
    credits are 0.0158, where dividing the CO2 saved by 1000 gives
    0.015749999999999997, which rounds to 0.0157. *)
Lemma calculate_teg_plan_not_as_stated :
  result (calculate_teg_plan huge_plan clear_day ∅) = Raised OverflowError /\
  (exists d co2,
      result (calculate_teg_plan ninety_modules clear_day ∅) = Returned d /\
      co2 = fmul (fdiv (fmul (of_Z 90) (of_decimal 250 0)) (of_Z 1000))
              (of_decimal 7 (-1)) /\
      dict_lookup d "Carbon Credits Earned per Day" =
        Some (PyFloat (of_decimal 158 (-4))) /\
      float_repr (fdiv co2 (of_Z 1000)) = "0.015749999999999997" /\
      round_digits (fdiv co2 (of_Z 1000)) 4 = of_decimal 157 (-4) /\
      float_eqb (of_decimal 158 (-4)) (of_decimal 157 (-4)) = false).
Proof.
  split; [vm_compute; reflexivity|].
  do 2 eexists. split; [vm_compute; reflexivity|].
  split; [reflexivity|]. repeat split; vm_compute; reflexivity.
Qed.

(** C2 (as the code has it): for 100 modules of 5.0 Wh the response holds
    500.0 Wh, 0.5 kWh, 0.35 kg of CO2, 0.0003 credits (0.00035 rounded to 4
    decimals) and the range text "RM 0.11 - RM 0.29" (0.109 and 0.2855
    rounded to 2 decimals). *)
Theorem calculate_teg_plan_worked_example :
  result (calculate_teg_plan worked_plan clear_day ∅) =
  Returned
    [("Total Energy Generated (Wh/day)", PyFloat (of_decimal 500 0));
     ("Total Energy (kWh/day)", PyFloat (of_decimal 5 (-1)));
     ("Number of TEG Modules", PyInt 100);
     ("CO2 Saved (kg/day)", PyFloat (of_decimal 35 (-2)));
     ("Carbon Credits Earned per Day", PyFloat (of_decimal 3 (-4)));
     ("Daily Energy Cost Savings (RM Range)", PyStr "RM 0.11 - RM 0.29")] /\
  files_after (calculate_teg_plan worked_plan clear_day ∅) = ∅ /\
  trace (calculate_teg_plan worked_plan clear_day ∅) = [].
Proof. repeat split; vm_compute; reflexivity. Qed.

(** C2, refuted as stated: the response to the worked example is not the
    one with 0.00035 credits and the range "RM 0.109 - RM 0.2855". *)
Lemma calculate_teg_plan_example_not_as_stated :
  exists d,
    result (calculate_teg_plan worked_plan clear_day ∅) = Returned d /\
    worked_example d = false /\
    dict_lookup d "Carbon Credits Earned per Day" =
      Some (PyFloat (of_decimal 3 (-4))) /\
    dict_lookup d "Daily Energy Cost Savings (RM Range)" =
      Some (PyStr "RM 0.11 - RM 0.29").
Proof.
  eexists. split; [vm_compute; reflexivity|].
  repeat split; vm_compute; reflexivity.
Qed.

(** *** Ranges of the reported values *)

Lemma magnitude_positive m e n d :
  magnitude m e = (n, d) -> 0 < n /\ 0 < d.
Proof.
  unfold magnitude. destruct e as [|k|k]; intros H; injection H as <- <-.
  - lia.
  - split; [|lia]. apply Z.mul_pos_pos; [lia|]. apply Z.pow_pos_nonneg; lia.
  - split; [lia|]. apply Z.pow_pos_nonneg; lia.
Qed.

Lemma round_half_even_bounds n d b :
  0 < d -> 0 <= n -> n <= b * d ->
  0 <= round_half_even n d <= b.
Proof.
  intros Hd Hn Hb. unfold round_half_even.
  pose proof (Z.div_mod n d ltac:(lia)) as Hdm.
  pose proof (Z.mod_pos_bound n d Hd) as Hmod.
  assert (Hq0 : 0 <= n / d) by (apply Z.div_pos; lia).
  assert (Hqb : n / d <= b) by (apply Z.div_le_upper_bound; lia).
  assert (Hup : 0 < n mod d -> n / d + 1 <= b) by nia.
  destruct (2 * (n mod d) ?= d) eqn:Hc.
  - apply Z.compare_eq in Hc. destruct (Z.even (n / d)); lia.
  - lia.
  - apply Z.compare_gt_iff in Hc. lia.
Qed.

(** Every [r / 100] with [1 <= r <= 6000], read as a double of either sign,
    is within 60 in magnitude. *)
Lemma hundredths_table :
  forallb
    (fun r => within (nearest_pos false (Pos.of_nat r) 100) 60 &&
              within (nearest_pos true (Pos.of_nat r) 100) 60)
    (seq 1 (Pos.to_nat 6000)) = true.
Proof. vm_compute. reflexivity. Qed.

Lemma hundredth_within_60 s r :
  Zpos r <= 6000 -> within (nearest_pos s r 100) 60 = true.
Proof.
  intros Hr.
  assert (Hin : In (Pos.to_nat r) (seq 1 (Pos.to_nat 6000)))
    by (apply in_seq; lia).
  pose proof (proj1 (forallb_forall _ _) hundredths_table _ Hin) as Ht.
  cbv beta in Ht. rewrite Pos2Nat.id in Ht.
  apply andb_true_iff in Ht as [Hf Htr].
  destruct s; [exact Htr | exact Hf].
Qed.

(** Rounding to 2 decimals keeps a temperature within -60..60. *)
Lemma round_digits_within_60 x :
  within x 60 = true -> within (round_digits x 2) 60 = true.
Proof.
  destruct x as [s|s| |s m e]; try (intros H; exact H).
  unfold round_digits, within. destruct (magnitude m e) as [n d] eqn:Hm.
  intros H. apply Z.leb_le in H.
  apply magnitude_positive in Hm as [Hn Hd].
  change (10 ^ Z.of_nat 2) with 100.
  pose proof (round_half_even_bounds (n * 100) d 6000 Hd ltac:(lia) ltac:(lia))
    as Hr.
  unfold signed_nearest.
  destruct (round_half_even (n * 100) d) as [|r|r]; try reflexivity.
  apply (hundredth_within_60 s r). lia.
Qed.

Lemma shr_1_nonneg mrs : 0 <= shr_m mrs -> 0 <= shr_m (shr_1 mrs).
Proof.
  destruct mrs as [m r s]. destruct m as [|[p|p|]|[p|p|]]; simpl; lia.
Qed.

Lemma iter_shr_1_nonneg p :
  forall mrs, 0 <= shr_m mrs -> 0 <= shr_m (SpecFloat.iter_pos shr_1 p mrs).
Proof.
  induction p as [p IH|p IH|]; simpl; intros mrs H; auto using shr_1_nonneg.
Qed.

Lemma shr_fexp_nonneg m e l :
  0 <= m -> 0 <= shr_m (fst (shr_fexp prec emax m e l)).
Proof.
  intros Hm. unfold shr_fexp, shr.
  assert (H0 : 0 <= shr_m (shr_record_of_loc m l))
    by (destruct l as [|[ | | ]]; exact Hm).
  destruct (fexp prec emax (Zdigits2 m + e) - e); simpl;
    auto using iter_shr_1_nonneg.
Qed.

Lemma round_nearest_even_nonneg m l : 0 <= m -> 0 <= round_nearest_even m l.
Proof.
  intros Hm. unfold round_nearest_even.
  destruct l as [|[ | | ]]; try destruct (Z.even m); lia.
Qed.

(** Rounding a non-negative mantissa to a double gives no negative value
    and no NaN. *)
Lemma binary_round_aux_nonneg m e l :
  0 <= m -> non_negative (binary_round_aux prec emax false m e l) = true.
Proof.
  intros Hm. unfold binary_round_aux.
  pose proof (shr_fexp_nonneg m e l Hm) as H1.
  destruct (shr_fexp prec emax m e l) as [mrs' e'].
  pose proof (shr_fexp_nonneg
                (round_nearest_even (shr_m mrs') (loc_of_shr_record mrs'))
                e' loc_Exact
                (round_nearest_even_nonneg _ _ H1)) as H2.
  destruct (shr_fexp prec emax _ e' loc_Exact) as [mrs'' e''].
  cbn [fst] in H2. destruct (shr_m mrs'') as [|q|q]; try reflexivity.
  - destruct (e'' <=? emax - prec); reflexivity.
  - lia.
Qed.

Lemma fdiv_nonneg x my ey :
  non_negative x = true ->
  non_negative (fdiv x (S754_finite false my ey)) = true.
Proof.
  destruct x as [s|s| |s mx ex]; simpl; intros H; try discriminate.
  - reflexivity.
  - destruct s; [discriminate | reflexivity].
  - destruct s; [discriminate|]. unfold fdiv, SFdiv, SFdiv_core_binary.
    set (m' := match ex - ey -
                       Z.min (fexp prec emax
                                (Zdigits2 (Z.pos mx) + ex -
                                 (Zdigits2 (Z.pos my) + ey))) (ex - ey)
               with
               | 0 => Z.pos mx
               | Z.pos _ => Z.shiftl (Z.pos mx) _
               | Z.neg _ => 0
               end).
    assert (Hm' : 0 <= m').
    { subst m'. destruct (ex - ey - _); try lia. apply Z.shiftl_nonneg. lia. }
    destruct (Z.div_eucl m' (Z.pos my)) as [q r] eqn:Hq.
    apply binary_round_aux_nonneg.
    assert (q = m' / Z.pos my) as -> by (unfold Z.div; rewrite Hq; reflexivity).
    apply Z.div_pos; lia.
Qed.

Lemma round_digits_nonneg x k :
  non_negative x = true -> non_negative (round_digits x k) = true.
Proof.
  destruct x as [s|s| |s m e]; try (intros H; exact H).
  simpl. intros H. destruct s; [discriminate|].
  unfold round_digits. destruct (magnitude m e) as [n d].
  unfold signed_nearest.
  destruct (round_half_even _ d) as [|r|r]; try reflexivity.
  destruct (10 ^ Z.of_nat k) as [|t|t]; try reflexivity.
  apply fdiv_nonneg. reflexivity.
Qed.

Lemma lst_field_in_range l x :
  lst_field l = Returned x -> truthy l = true ->
  lst_in_range l = true -> lst_in_range x = true.
Proof.
  unfold lst_field. intros Hx Ht Hr. rewrite Ht in Hx.
  destruct l as [ |z|f|t]; try discriminate; injection Hx as <-.
  - exact Hr.
  - apply round_digits_within_60. exact Hr.
Qed.

Lemma solar_radiation_field_nonneg s y :
  solar_radiation_field s = Returned y -> truthy s = true ->
  radiation_non_negative s = true -> radiation_non_negative y = true.
Proof.
  unfold solar_radiation_field. intros Hy Ht Hr. rewrite Ht in Hy.
  destruct s as [ |z|f|t]; try discriminate;
    cbn [py_truediv obind py_round] in Hy.
  - destruct (is_infinite (nearest z 1000000)); [discriminate|].
    cbn [obind py_round] in Hy. injection Hy as <-.
    cbn [radiation_non_negative]. apply round_digits_nonneg.
    destruct z as [|p|p]; try reflexivity.
    + apply fdiv_nonneg. reflexivity.
    + simpl in Hr. discriminate.
  - injection Hy as <-. cbn [radiation_non_negative].
    apply round_digits_nonneg.
    match goal with
    | |- non_negative (fdiv f ?d) = true =>
        assert (exists m e, d = S754_finite false m e) as (m & e & ->)
          by (vm_compute; eauto)
    end.
    apply fdiv_nonneg. exact Hr.
Qed.

Lemma field_null_iff (v x : pyval) (f : pyval -> outcome pyval) :
  (if truthy v then f v else Returned PyNone) = Returned x ->
  (forall y, f v = Returned y -> is_number y = true) ->
  (x = PyNone \/ is_number x = true) /\ (x = PyNone <-> truthy v = false).
Proof.
  intros Hx Hf. destruct (truthy v).
  - apply Hf in Hx. split; [right; exact Hx|].
    split; [intros -> | intros]; discriminate.
  - injection Hx as <-. split; [left; reflexivity|]. split; reflexivity.
Qed.

(** C5 (as the code has it): in a response with the saved image, [lst] and
    [solar_radiation] are each null or a number, each is null exactly when
    its own sample is falsy, whatever the other one is; [lst] is within
    -60..60 when the sampled temperature is, and [solar_radiation] is
    non-negative when the sampled radiation is. *)
Theorem get_lst_fields_follow_samples data w fs d l s :
  result (get_lst data w fs) = Returned d ->
  saved d ->
  lst_sample (trace (get_lst data w fs)) = Some l ->
  radiation_sample (trace (get_lst data w fs)) = Some s ->
  exists x y,
    dict_lookup d "lst" = Some x /\
    dict_lookup d "solar_radiation" = Some y /\
    (x = PyNone \/ is_number x = true) /\
    (y = PyNone \/ is_number y = true) /\
    (x = PyNone <-> truthy l = false) /\
    (y = PyNone <-> truthy s = false) /\
    (truthy l = true -> lst_in_range l = true -> lst_in_range x = true) /\
    (truthy s = true -> radiation_non_negative s = true ->
     radiation_non_negative y = true).
Proof.
  intros Hr Hs Hl Hrad.
  destruct (get_lst_saved data w fs d Hr Hs)
    as (l' & s' & x & y & url & body & Hl' & Hrad' & Hx & Hy & -> & _).
  rewrite Hl in Hl'. injection Hl' as <-.
  rewrite Hrad in Hrad'. injection Hrad' as <-.
  exists x, y. split; [reflexivity|]. split; [reflexivity|].
  destruct (field_null_iff l x (fun v => py_round v 2) Hx) as [Hx1 Hx2].
  { intros v. destruct l; simpl; intros H; try discriminate;
      injection H as <-; reflexivity. }
  destruct (field_null_iff s y
              (fun v => obind (py_truediv v 1000000) (fun q => py_round q 2))
              Hy) as [Hy1 Hy2].
  { intros v. destruct s as [ |z|f|t]; simpl; try discriminate.
    - destruct (is_infinite (nearest z 1000000)); simpl; intros H;
        try discriminate; injection H as <-; reflexivity.
    - intros H. injection H as <-. reflexivity. }
  split; [exact Hx1|]. split; [exact Hy1|].
  split; [exact Hx2|]. split; [exact Hy2|]. split.
  - intros Ht Hin. exact (lst_field_in_range l x Hx Ht Hin).
  - intros Ht Hin. exact (solar_radiation_field_nonneg s y Hy Ht Hin).
Qed.

Lemma get_lst_fields_follow_samples_witness :
  exists x y,
    dict_lookup
      (match result (get_lst kuala_lumpur clear_day ∅) with
       | Returned d => d
       | Raised _ => []
       end) "lst" = Some x /\
    dict_lookup
      (match result (get_lst kuala_lumpur clear_day ∅) with
       | Returned d => d
       | Raised _ => []
       end) "solar_radiation" = Some y /\
    lst_in_range x = true /\ radiation_non_negative y = true.
Proof.
  destruct (result (get_lst kuala_lumpur clear_day ∅)) as [d|] eqn:Hr;
    [|vm_compute in Hr; discriminate].
  destruct (get_lst_fields_follow_samples kuala_lumpur clear_day ∅ d warm sunny Hr)
    as (x & y & Hx & Hy & _ & _ & _ & _ & Hlst & Hsr).
  - vm_compute in Hr. injection Hr as <-. reflexivity.
  - vm_compute. reflexivity.
  - vm_compute. reflexivity.
  - exists x, y. repeat split; [exact Hx | exact Hy | apply Hlst | apply Hsr];
      vm_compute; reflexivity.
Defined.

(** C5, refuted as stated: over a masked pixel the response has a null
    [lst] next to a radiation of 18.23, and a sampled temperature of 70.7
    is reported as 70.7; both collections have images in either world. *)
Lemma get_lst_pairing_not_as_stated :
  (exists d,
      result (get_lst kuala_lumpur masked_pixel ∅) = Returned d /\
      saved d /\
      dict_lookup d "lst" = Some PyNone /\
      dict_lookup d "solar_radiation" = Some (PyFloat (of_decimal 1823 (-2))) /\
      both_null_or_both_plausible PyNone (PyFloat (of_decimal 1823 (-2))) = false) /\
  (exists d,
      result (get_lst kuala_lumpur hot_desert ∅) = Returned d /\
      saved d /\
      dict_lookup d "lst" = Some (PyFloat (of_decimal 707 (-1))) /\
      dict_lookup d "solar_radiation" = Some (PyFloat (of_decimal 1823 (-2))) /\
      both_null_or_both_plausible
        (PyFloat (of_decimal 707 (-1))) (PyFloat (of_decimal 1823 (-2))) = false).
Proof.
  split; eexists; (split; [vm_compute; reflexivity|]);
    repeat split; vm_compute; reflexivity.
Qed.

(** *** Further properties of the handlers *)

(** X1: [calculate_teg_plan] is a pure function of its input: the outcome
    does not depend on the services or on the files, no file is touched and
    nothing is asked or written, whether it returns or raises. *)
Theorem calculate_teg_plan_is_pure data w w' fs fs' :
  result (calculate_teg_plan data w fs) = result (calculate_teg_plan data w' fs') /\
  files_after (calculate_teg_plan data w fs) = fs /\
  trace (calculate_teg_plan data w fs) = [].
Proof.
  unfold_handler.
  destruct (int_mul_float (num_tegs data) (energy_per_module_wh data));
    repeat split; reflexivity.
Qed.

(** X2: when the GET of [get_street_view] answers a status other than 200,
    the handler returns its error body and writes nothing. *)
Theorem get_street_view_fetch_failed loc w fs url resp :
  In (EvHttpGet url (Returned resp)) (trace (get_street_view loc w fs)) ->
  status_code resp <> 200 ->
  result (get_street_view loc w fs) =
    Returned [("error", PyStr "Could not fetch Street View image")] /\
  files_after (get_street_view loc w fs) = fs /\
  ~ wrote (trace (get_street_view loc w fs)).
Proof.
  unfold_handler. split_run; intros Hin Hs; trace_cases;
    try (apply negb_false_iff in Heqb; lia).
  repeat split; try reflexivity. intros Hw. trace_cases.
Qed.

Lemma get_street_view_fetch_failed_witness :
  result (get_street_view kl_tower thumbnail_gone ∅) =
    Returned [("error", PyStr "Could not fetch Street View image")] /\
  files_after (get_street_view kl_tower thumbnail_gone ∅) = ∅.
Proof.
  destruct (get_street_view_fetch_failed kl_tower thumbnail_gone ∅
              (street_view_url "KEY" kl_tower)
              {| status_code := 404; content := image_bytes |})
    as (Hr & Hf & _).
  - vm_compute. left. reflexivity.
  - discriminate.
  - split; assumption.
Defined.

(** X3: when the GET of [get_hybrid_map] answers a status other than 200,
    the handler returns its error body and writes nothing. *)
Theorem get_hybrid_map_fetch_failed loc w fs url resp :
  In (EvHttpGet url (Returned resp)) (trace (get_hybrid_map loc w fs)) ->
  status_code resp <> 200 ->
  result (get_hybrid_map loc w fs) =
    Returned [("error", PyStr "Could not fetch satellite image")] /\
  files_after (get_hybrid_map loc w fs) = fs /\
  ~ wrote (trace (get_hybrid_map loc w fs)).
Proof.
  unfold_handler. split_run; intros Hin Hs; trace_cases;
    try (apply negb_false_iff in Heqb; lia).
  repeat split; try reflexivity. intros Hw. trace_cases.
Qed.

Lemma get_hybrid_map_fetch_failed_witness :
  result (get_hybrid_map kl_tower thumbnail_gone ∅) =
    Returned [("error", PyStr "Could not fetch satellite image")] /\
  files_after (get_hybrid_map kl_tower thumbnail_gone ∅) = ∅.
Proof.
  destruct (get_hybrid_map_fetch_failed kl_tower thumbnail_gone ∅
              (hybrid_url "KEY" kl_tower)
              {| status_code := 404; content := image_bytes |})
    as (Hr & Hf & _).
  - vm_compute. left. reflexivity.
  - discriminate.
  - split; assumption.
Defined.

(** X4: a response of [get_lst] with the saved image names a path and the
    thumbnail URL; the file at that path holds the body the GET of that URL
    returned with status 200, and every other file is as it was. *)
Theorem get_lst_saved_file data w fs d :
  result (get_lst data w fs) = Returned d ->
  saved d ->
  exists url resp,
    In (EvHttpGet url (Returned resp)) (trace (get_lst data w fs)) /\
    status_code resp = 200 /\
    dict_lookup d "url" = Some (PyStr url) /\
    dict_lookup d "path" = Some (PyStr (lst_path data (clock_now w))) /\
    files_after (get_lst data w fs) !! lst_path data (clock_now w) =
      Some (content resp) /\
    (forall q, q <> lst_path data (clock_now w) ->
               files_after (get_lst data w fs) !! q = fs !! q).
Proof.
  unfold saved. unfold_handler. split_run; intros Hr Hs;
    inversion Hr; subst; try discriminate.
  do 2 eexists. split; [do 4 right; left; reflexivity|].
  split; [lia|]. split; [reflexivity|]. split; [reflexivity|].
  split; [apply lookup_insert_eq|].
  intros q Hq. apply lookup_insert_ne. intros Heq. apply Hq.
  symmetry. exact Heq.
Qed.

Lemma get_lst_saved_file_witness :
  exists url resp,
    In (EvHttpGet url (Returned resp)) (trace (get_lst kuala_lumpur clear_day ∅)) /\
    status_code resp = 200 /\
    files_after (get_lst kuala_lumpur clear_day ∅)
      !! lst_path kuala_lumpur request_time = Some (content resp).
Proof.
  destruct (result (get_lst kuala_lumpur clear_day ∅)) as [d|] eqn:Hr;
    [|vm_compute in Hr; discriminate].
  destruct (get_lst_saved_file kuala_lumpur clear_day ∅ d Hr)
    as (url & resp & Hin & Hs & _ & _ & Hf & _).
  - vm_compute in Hr. injection Hr as <-. reflexivity.
  - exists url, resp. repeat split; assumption.
Defined.

(** X5: an exception of the Earth Engine service or of the thumbnail GET is
    not handled: [get_lst] raises it, and the file system is unchanged. *)
Theorem get_lst_service_failure_propagates data w fs e :
  (exists c, In (EvSize c (Raised e)) (trace (get_lst data w fs))) \/
  (exists i p, In (EvThumbURL i p (Raised e)) (trace (get_lst data w fs))) \/
  (exists i red g sc,
      In (EvReduceRegion i red g sc (Raised e)) (trace (get_lst data w fs))) \/
  (exists url, In (EvHttpGet url (Raised e)) (trace (get_lst data w fs))) ->
  result (get_lst data w fs) = Raised e /\
  files_after (get_lst data w fs) = fs /\
  ~ wrote (trace (get_lst data w fs)).
Proof.
  unfold_handler. split_run; intros Hin;
    try (exfalso; decompose [or ex] Hin; trace_cases; congruence).
  all: decompose [or ex] Hin; trace_cases; try congruence;
    repeat split; try reflexivity; intros Hw; trace_cases.
Qed.

Lemma get_lst_service_failure_propagates_witness :
  result
    (get_lst kuala_lumpur
       (with_ee_size clear_day (fun _ => Raised (ServiceError "quota"))) ∅) =
    Raised (ServiceError "quota") /\
  files_after
    (get_lst kuala_lumpur
       (with_ee_size clear_day (fun _ => Raised (ServiceError "quota"))) ∅) = ∅.
Proof.
  destruct (get_lst_service_failure_propagates kuala_lumpur
              (with_ee_size clear_day (fun _ => Raised (ServiceError "quota")))
              ∅ (ServiceError "quota"))
    as (Hr & Hf & _).
  - left. eexists. vm_compute. left. reflexivity.
  - split; assumption.
Defined.

(** X6: [get_lst] contacts the services in one fixed order: the size query
    on the temperature collection, the thumbnail URL of the temperature
    raster, the sample of the temperature raster, the sample of the
    radiation raster, the GET, and the write last; a run stops somewhere
    along this sequence and never skips, swaps or repeats a step.  It has
    gone through all of it exactly when it wrote a file.  The two map
    endpoints do one GET and then at most one write. *)
Theorem handlers_event_order :
  (forall data w fs,
      map kind_of (trace (get_lst data w fs)) `prefix_of` GET_LST_ORDER /\
      (wrote (trace (get_lst data w fs)) <->
       map kind_of (trace (get_lst data w fs)) = GET_LST_ORDER)) /\
  (forall loc w fs,
      map kind_of (trace (get_street_view loc w fs)) `prefix_of` MAP_ORDER /\
      map kind_of (trace (get_street_view loc w fs)) <> []) /\
  (forall loc w fs,
      map kind_of (trace (get_hybrid_map loc w fs)) `prefix_of` MAP_ORDER /\
      map kind_of (trace (get_hybrid_map loc w fs)) <> []).
Proof.
  repeat split; unfold_handler; split_run;
    try (eexists; reflexivity); try discriminate; try reflexivity;
    try (intros Hw; trace_cases; fail);
    try (intros _; do 2 eexists; do 5 right; left; reflexivity).
Qed.

(** X7: when the GET of [get_street_view] answers 200, the URL asked is the
    Street View URL of the coordinate with the configured key, the response
    names the path, the file at that path holds the body of the answer, and
    every other file is as it was. *)
Theorem get_street_view_saved loc w fs url resp :
  In (EvHttpGet url (Returned resp)) (trace (get_street_view loc w fs)) ->
  status_code resp = 200 ->
  url = street_view_url (GOOGLE_MAPS_API_KEY w) loc /\
  result (get_street_view loc w fs) =
    Returned [("message", PyStr "Street View image saved");
              ("file_path", PyStr (street_view_path loc))] /\
  files_after (get_street_view loc w fs) !! street_view_path loc =
    Some (content resp) /\
  (forall q, q <> street_view_path loc ->
             files_after (get_street_view loc w fs) !! q = fs !! q).
Proof.
  unfold_handler. split_run; intros Hin Hs; trace_cases;
    try (apply negb_true_iff in Heqb; lia).
  repeat split; try reflexivity.
  - apply lookup_insert_eq.
  - intros q Hq. apply lookup_insert_ne. intros Heq. apply Hq.
    symmetry. exact Heq.
Qed.

Lemma get_street_view_saved_witness :
  street_view_url "KEY" half_way =
    "https://maps.googleapis.com/maps/api/streetview?size=600x400&location=8.000045776367188,16.000045776367188&heading=90&pitch=0&key=KEY" /\
  In (EvHttpGet (street_view_url "KEY" half_way)
        (Returned {| status_code := 200; content := image_bytes |}))
     (trace (get_street_view half_way clear_day ∅)) /\
  files_after (get_street_view half_way clear_day ∅)
    !! "static/maps/streetview_8_000045776367188_16_000045776367188.jpg" =
    Some image_bytes.
Proof.
  assert (Hin : In (EvHttpGet (street_view_url "KEY" half_way)
                      (Returned {| status_code := 200; content := image_bytes |}))
                   (trace (get_street_view half_way clear_day ∅)))
    by (left; reflexivity).
  destruct (get_street_view_saved half_way clear_day ∅
              (street_view_url "KEY" half_way)
              {| status_code := 200; content := image_bytes |} Hin eq_refl)
    as (_ & _ & Hf & _).
  split; [vm_compute; reflexivity|]. split; [exact Hin|].
  replace "static/maps/streetview_8_000045776367188_16_000045776367188.jpg"
    with (street_view_path half_way) by (vm_compute; reflexivity).
  exact Hf.
Defined.

(** X8: when the GET of [get_hybrid_map] answers 200, the URL asked is the
    static-map URL of the coordinate with the configured key, the response
    names the path, the file at that path holds the body of the answer, and
    every other file is as it was. *)
Theorem get_hybrid_map_saved loc w fs url resp :
  In (EvHttpGet url (Returned resp)) (trace (get_hybrid_map loc w fs)) ->
  status_code resp = 200 ->
  url = hybrid_url (GOOGLE_MAPS_API_KEY w) loc /\
  result (get_hybrid_map loc w fs) =
    Returned [("message", PyStr "Hybrid satellite image saved");
              ("file_path", PyStr (hybrid_map_path loc))] /\
  files_after (get_hybrid_map loc w fs) !! hybrid_map_path loc =
    Some (content resp) /\
  (forall q, q <> hybrid_map_path loc ->
             files_after (get_hybrid_map loc w fs) !! q = fs !! q).
Proof.
  unfold_handler. split_run; intros Hin Hs; trace_cases;
    try (apply negb_true_iff in Heqb; lia).
  repeat split; try reflexivity.
  - apply lookup_insert_eq.
  - intros q Hq. apply lookup_insert_ne. intros Heq. apply Hq.
    symmetry. exact Heq.
Qed.

Lemma get_hybrid_map_saved_witness :
  hybrid_url "KEY" half_way =
    "https://maps.googleapis.com/maps/api/staticmap?center=8.000045776367188,16.000045776367188&zoom=18&size=640x640&scale=2&maptype=hybrid&markers=color:red%7Clabel:%7C8.000045776367188,16.000045776367188&key=KEY" /\
  In (EvHttpGet (hybrid_url "KEY" half_way)
        (Returned {| status_code := 200; content := image_bytes |}))
     (trace (get_hybrid_map half_way clear_day ∅)) /\
  files_after (get_hybrid_map half_way clear_day ∅)
    !! "static/maps/hybridmap_8_000045776367188_16_000045776367188.jpg" =
    Some image_bytes.
Proof.
  assert (Hin : In (EvHttpGet (hybrid_url "KEY" half_way)
                      (Returned {| status_code := 200; content := image_bytes |}))
                   (trace (get_hybrid_map half_way clear_day ∅)))
    by (left; reflexivity).
  destruct (get_hybrid_map_saved half_way clear_day ∅
              (hybrid_url "KEY" half_way)
              {| status_code := 200; content := image_bytes |} Hin eq_refl)
    as (_ & _ & Hf & _).
  split; [vm_compute; reflexivity|]. split; [exact Hin|].
  replace "static/maps/hybridmap_8_000045776367188_16_000045776367188.jpg"
    with (hybrid_map_path half_way) by (vm_compute; reflexivity).
  exact Hf.
Defined.

Lemma lst_field_raises v e :
  lst_field v = Raised e ->
  exists t, v = PyStr t /\ t <> "" /\ e = TypeError.
Proof.
  unfold lst_field. destruct v as [ |z|x|t]; simpl.
  - discriminate.
  - destruct (negb (z =? 0)); discriminate.
  - destruct x; discriminate.
  - destruct (String.eqb_spec t "") as [->|Hne]; simpl; [discriminate|].
    intros H. injection H as <-. exists t. repeat split. exact Hne.
Qed.

Lemma solar_radiation_field_raises v e :
  solar_radiation_field v = Raised e ->
  (exists t, v = PyStr t /\ t <> "" /\ e = TypeError) \/
  (exists z, v = PyInt z /\ is_infinite (nearest z 1000000) = true /\
             e = OverflowError).
Proof.
  unfold solar_radiation_field. destruct v as [ |z|x|t];
    cbn [truthy py_truediv obind py_round].
  - discriminate.
  - destruct (negb (z =? 0)); [|discriminate].
    destruct (is_infinite (nearest z 1000000)) eqn:Hinf;
      cbn [obind py_round]; [|discriminate].
    intros H. injection H as <-. right. exists z.
    split; [reflexivity|]. split; [exact Hinf | reflexivity].
  - destruct x; discriminate.
  - destruct (String.eqb_spec t "") as [->|Hne]; cbn [negb];
      [discriminate|].
    intros H. injection H as <-. left. exists t. repeat split. exact Hne.
Qed.

(** X9: the thumbnail is written before the two response entries are
    computed, and nothing undoes the write.  So when a run of [get_lst]
    raises after it wrote, the file is on disk; the exception is a TypeError
    for a non-empty text sample, or an OverflowError for an int radiation
    sample whose quotient by 1,000,000 is beyond the doubles. *)
Theorem get_lst_raises_after_write data w fs p b e :
  In (EvWrite p b) (trace (get_lst data w fs)) ->
  result (get_lst data w fs) = Raised e ->
  files_after (get_lst data w fs) !! p = Some b /\
  exists l s,
    lst_sample (trace (get_lst data w fs)) = Some l /\
    radiation_sample (trace (get_lst data w fs)) = Some s /\
    ((exists t, l = PyStr t /\ t <> "" /\ e = TypeError) \/
     (exists t, s = PyStr t /\ t <> "" /\ e = TypeError) \/
     (exists z, s = PyInt z /\ is_infinite (nearest z 1000000) = true /\
                e = OverflowError)).
Proof.
  unfold_handler. split_run; intros Hin Hr; trace_cases;
    try discriminate; injection Hr as ->.
  - split; [apply lookup_insert_eq|]. do 2 eexists.
    split; [reflexivity|]. split; [reflexivity|].
    right. eapply solar_radiation_field_raises. eassumption.
  - split; [apply lookup_insert_eq|]. do 2 eexists.
    split; [reflexivity|]. split; [reflexivity|].
    left. eapply lst_field_raises. eassumption.
Qed.

Lemma get_lst_raises_after_write_witness :
  result (get_lst kuala_lumpur text_sample ∅) = Raised TypeError /\
  files_after (get_lst kuala_lumpur text_sample ∅)
    !! lst_path kuala_lumpur request_time = Some image_bytes.
Proof.
  split; [vm_compute; reflexivity|].
  apply (get_lst_raises_after_write kuala_lumpur text_sample ∅
           (lst_path kuala_lumpur request_time) image_bytes TypeError).
  - vm_compute. do 5 right. left. reflexivity.
  - vm_compute. reflexivity.
Defined.

(** *** File names hold no path separator *)

Lemma has_char_append c a b :
  has_char c (a ++ b) = has_char c a || has_char c b.
Proof.
  induction a as [|x a IH]; [reflexivity|].
  change (String x a ++ b) with (String x (a ++ b)).
  cbn [has_char]. rewrite IH. apply orb_assoc.
Qed.

Lemma digit_char_plain d :
  0 <= d < 10 -> Ascii.eqb (digit_char d) "/" = false.
Proof.
  intros Hd.
  assert (H : d = 0 \/ d = 1 \/ d = 2 \/ d = 3 \/ d = 4 \/ d = 5 \/ d = 6 \/
              d = 7 \/ d = 8 \/ d = 9) by lia.
  decompose [or] H; subst; reflexivity.
Qed.

Lemma decimal_go_plain fuel :
  forall n acc, has_char "/" (decimal_go fuel n acc) = has_char "/" acc.
Proof.
  induction fuel as [|fuel IH]; intros n acc; [reflexivity|].
  cbn [decimal_go].
  assert (Hd : has_char "/" (String (digit_char (n mod 10)) acc) =
               has_char "/" acc).
  { cbn [has_char]. rewrite digit_char_plain; [reflexivity|].
    apply Z.mod_pos_bound. lia. }
  destruct (n / 10 =? 0); [exact Hd|]. rewrite IH. exact Hd.
Qed.

Lemma decimal_plain n : has_char "/" (decimal n) = false.
Proof. unfold decimal. apply decimal_go_plain. Qed.

Lemma zeros_plain k : has_char "/" (zeros k) = false.
Proof. induction k as [|k IH]; [reflexivity | exact IH]. Qed.

Lemma rstrip0_plain s :
  has_char "/" s = false -> has_char "/" (rstrip0 s) = false.
Proof.
  induction s as [|a r IH]; [reflexivity|].
  cbn [has_char rstrip0]. intros H. apply orb_false_iff in H as [Ha Hr].
  specialize (IH Hr). destruct (rstrip0 r) as [|a' r'].
  - destruct (Ascii.eqb a "0"); [reflexivity|].
    cbn [has_char]. rewrite Ha. reflexivity.
  - cbn [has_char] in *. rewrite Ha. exact IH.
Qed.

Lemma substring_plain s :
  forall n m, has_char "/" s = false -> has_char "/" (substring n m s) = false.
Proof.
  induction s as [|a r IH]; intros n m H.
  - destruct n, m; reflexivity.
  - cbn [has_char] in H. apply orb_false_iff in H as [Ha Hr].
    destruct n as [|n]; [destruct m as [|m]|]; cbn [substring has_char].
    + reflexivity.
    + rewrite Ha. apply IH. exact Hr.
    + apply IH. exact Hr.
Qed.

Lemma exponent_text_plain x : has_char "/" (exponent_text x) = false.
Proof.
  unfold exponent_text. rewrite has_char_append.
  destruct (x <? 0); cbn [has_char orb Ascii.eqb];
    (destruct (strlen (decimal (Z.abs x)) <? 2);
     [rewrite has_char_append|]; rewrite decimal_plain; reflexivity).
Qed.

Lemma float_repr_finite_plain ds decpt :
  has_char "/" ds = false -> has_char "/" (float_repr_finite ds decpt) = false.
Proof.
  intros H. unfold float_repr_finite.
  destruct ((decpt <=? -4) || (16 <? decpt)).
  - destruct ds as [|c r]; [reflexivity|].
    cbn [has_char] in H. apply orb_false_iff in H as [Hc Hr].
    destruct r as [|c' r'].
    + cbn [has_char]. rewrite Hc, has_char_append, exponent_text_plain.
      reflexivity.
    + cbn [has_char]. rewrite Hc, !has_char_append, exponent_text_plain.
      cbn [has_char] in *. rewrite Hr. reflexivity.
  - destruct (decpt <=? 0).
    + rewrite !has_char_append, zeros_plain, H. reflexivity.
    + destruct (strlen ds <=? decpt).
      * rewrite !has_char_append, zeros_plain, H. reflexivity.
      * rewrite !has_char_append, !substring_plain by exact H. reflexivity.
Qed.

Lemma float_repr_plain x : has_char "/" (float_repr x) = false.
Proof.
  destruct x as [s|s| |s m e]; try (destruct s; reflexivity); try reflexivity.
  unfold float_repr, shortest.
  destruct (magnitude m e) as [n d].
  destruct (shortest_go 17 m e (decimal_exponent n d) 1) as [c j].
  rewrite has_char_append, float_repr_finite_plain.
  - destruct s; reflexivity.
  - apply rstrip0_plain, decimal_plain.
Qed.

Lemma coordinate_text_plain x : has_char "/" (coordinate_text x) = false.
Proof.
  unfold coordinate_text. pose proof (float_repr_plain x) as H.
  induction (float_repr x) as [|a r IH]; [reflexivity|].
  cbn [has_char replace_char] in *. apply orb_false_iff in H as [Ha Hr].
  rewrite IH by exact Hr. destruct (Ascii.eqb a "."); [reflexivity|].
  rewrite Ha. reflexivity.
Qed.

Lemma pad_plain k n : has_char "/" (pad k n) = false.
Proof. unfold pad. rewrite has_char_append, zeros_plain, decimal_plain. reflexivity. Qed.

Lemma timestamp_plain t : has_char "/" (strftime TIMESTAMP t) = false.
Proof.
  change (strftime TIMESTAMP t) with
    (pad 4 (year t) ++ pad 2 (month t) ++ pad 2 (day t) ++
     pad 2 (hour t) ++ pad 2 (minute t) ++ pad 2 (second t) ++ "").
  rewrite !has_char_append, !pad_plain. reflexivity.
Qed.

Lemma lst_filename_plain data t : has_char "/" (lst_filename data t) = false.
Proof.
  unfold lst_filename.
  rewrite !has_char_append, !float_repr_plain, timestamp_plain. reflexivity.
Qed.

Lemma street_view_filename_plain loc :
  has_char "/" (street_view_filename loc) = false.
Proof.
  unfold street_view_filename.
  rewrite !has_char_append, !coordinate_text_plain. reflexivity.
Qed.

Lemma hybrid_map_filename_plain loc :
  has_char "/" (hybrid_map_filename loc) = false.
Proof.
  unfold hybrid_map_filename.
  rewrite !has_char_append, !coordinate_text_plain. reflexivity.
Qed.

(** X10: whatever the coordinate and the clock, a file name the handlers
    build holds no "/": every file is written directly inside its
    directory, [outputs/] for [get_lst] and [static/maps/] for the two map
    endpoints, never in a subdirectory or outside. *)
Theorem written_files_stay_in_their_directory :
  (forall data w fs p b,
      In (EvWrite p b) (trace (get_lst data w fs)) ->
      exists name, p = "outputs/" ++ name /\ has_char "/" name = false) /\
  (forall loc w fs p b,
      In (EvWrite p b) (trace (get_street_view loc w fs)) ->
      exists name, p = "static/maps/" ++ name /\ has_char "/" name = false) /\
  (forall loc w fs p b,
      In (EvWrite p b) (trace (get_hybrid_map loc w fs)) ->
      exists name, p = "static/maps/" ++ name /\ has_char "/" name = false).
Proof.
  repeat split.
  - intros data w fs p b Hin. exists (lst_filename data (clock_now w)).
    split; [|apply lst_filename_plain].
    revert Hin. unfold_handler. split_run; intros Hin; trace_cases.
    all: reflexivity.
  - intros loc w fs p b Hin. exists (street_view_filename loc).
    split; [|apply street_view_filename_plain].
    revert Hin. unfold_handler. split_run; intros Hin; trace_cases.
    reflexivity.
  - intros loc w fs p b Hin. exists (hybrid_map_filename loc).
    split; [|apply hybrid_map_filename_plain].
    revert Hin. unfold_handler. split_run; intros Hin; trace_cases.
    reflexivity.
Qed.

(** *** The endpoints and each other's files *)

Lemma paths_differ loc loc' data t :
  street_view_path loc <> hybrid_map_path loc' /\
  street_view_path loc <> lst_path data t /\
  hybrid_map_path loc' <> lst_path data t.
Proof.
  repeat split; intros H.
  - apply (f_equal (String.get 12)) in H.
    change (Some "s"%char = Some "h"%char) in H. discriminate H.
  - apply (f_equal (String.get 0)) in H.
    change (Some "s"%char = Some "o"%char) in H. discriminate H.
  - apply (f_equal (String.get 0)) in H.
    change (Some "s"%char = Some "o"%char) in H. discriminate H.
Qed.

(** X11: a call changes no file but the one at its own path, whatever its
    outcome, and the paths of the three endpoints differ for all inputs: no
    endpoint ever replaces or removes a file written by another. *)
Theorem endpoints_keep_other_files :
  (forall data w fs q,
      q <> lst_path data (clock_now w) ->
      files_after (get_lst data w fs) !! q = fs !! q) /\
  (forall loc w fs q,
      q <> street_view_path loc ->
      files_after (get_street_view loc w fs) !! q = fs !! q) /\
  (forall loc w fs q,
      q <> hybrid_map_path loc ->
      files_after (get_hybrid_map loc w fs) !! q = fs !! q) /\
  (forall loc loc' data t,
      street_view_path loc <> hybrid_map_path loc' /\
      street_view_path loc <> lst_path data t /\
      hybrid_map_path loc' <> lst_path data t).
Proof.
  split; [|split; [|split]].
  - intros data w fs q Hq. unfold_handler. split_run; try reflexivity.
    all: apply lookup_insert_ne; intros Heq; apply Hq; symmetry; exact Heq.
  - intros loc w fs q Hq. unfold_handler. split_run; try reflexivity.
    apply lookup_insert_ne. intros Heq. apply Hq. symmetry. exact Heq.
  - intros loc w fs q Hq. unfold_handler. split_run; try reflexivity.
    apply lookup_insert_ne. intros Heq. apply Hq. symmetry. exact Heq.
  - intros loc loc' data t. apply paths_differ.
Qed.

Example street_view_survives_other_calls :
  files_after
    (get_lst kuala_lumpur clear_day
       (files_after
          (get_hybrid_map kl_tower later_reply
             (files_after (get_street_view kl_tower clear_day ∅)))))
    !! street_view_path kl_tower = Some image_bytes.
Proof. vm_compute. reflexivity. Qed.

(** *** Signs in the calculator *)

Lemma binary_round_aux_opp s m e l :
  binary_round_aux prec emax (negb s) m e l =
  SFopp (binary_round_aux prec emax s m e l).
Proof.
  unfold binary_round_aux.
  destruct (shr_fexp prec emax m e l) as [mrs' e'].
  destruct (shr_fexp prec emax _ e' loc_Exact) as [mrs'' e''].
  destruct (shr_m mrs'') as [|q|q]; try reflexivity.
  destruct (e'' <=? emax - prec); reflexivity.
Qed.

Lemma of_Z_nonneg n : 0 <= n -> non_negative (of_Z n) = true.
Proof.
  intros Hn. destruct n as [|m|m]; [reflexivity| |lia].
  unfold of_Z, binary_normalize, binary_round.
  destruct (shl_align m 0 _) as [mz ez].
  apply binary_round_aux_nonneg. lia.
Qed.

Lemma SFopp_involutive x : SFopp (SFopp x) = x.
Proof. destruct x as [[]|[]| |[] m e]; reflexivity. Qed.

Lemma of_Z_opp n : n <> 0 -> of_Z (- n) = SFopp (of_Z n).
Proof.
  intros Hn. destruct n as [|m|m]; [congruence| |].
  - change (- Z.pos m) with (Z.neg m).
    unfold of_Z, binary_normalize, binary_round.
    destruct (shl_align m 0 _) as [mz ez].
    apply (binary_round_aux_opp false).
  - change (- Z.neg m) with (Z.pos m).
    unfold of_Z, binary_normalize, binary_round.
    destruct (shl_align m 0 _) as [mz ez].
    change (binary_round_aux prec emax true (Z.pos mz) ez loc_Exact) with
      (binary_round_aux prec emax (negb false) (Z.pos mz) ez loc_Exact).
    rewrite binary_round_aux_opp. symmetry. apply SFopp_involutive.
Qed.

Lemma fmul_opp x y : fmul (SFopp x) y = SFopp (fmul x y).
Proof.
  unfold fmul, SFmul.
  destruct x as [s|s| |s mx ex], y as [t|t| |t my ey]; cbn [SFopp];
    try reflexivity; try (destruct s, t; reflexivity).
  rewrite <- binary_round_aux_opp. f_equal. destruct s, t; reflexivity.
Qed.

Lemma fdiv_opp x y : fdiv (SFopp x) y = SFopp (fdiv x y).
Proof.
  unfold fdiv, SFdiv.
  destruct x as [s|s| |s mx ex], y as [t|t| |t my ey]; cbn [SFopp];
    try reflexivity; try (destruct s, t; reflexivity).
  destruct (SFdiv_core_binary prec emax (Z.pos mx) ex (Z.pos my) ey)
    as [[mz ez] lz].
  rewrite <- binary_round_aux_opp. f_equal. destruct s, t; reflexivity.
Qed.

Lemma round_digits_opp x k :
  round_digits (SFopp x) k = SFopp (round_digits x k).
Proof.
  destruct x as [s|s| |s m e]; try reflexivity.
  cbn [SFopp]. unfold round_digits. destruct (magnitude m e) as [n d].
  unfold signed_nearest.
  destruct (round_half_even _ d) as [|r|r]; try reflexivity.
  destruct (10 ^ Z.of_nat k) as [|q|q]; try reflexivity.
  unfold nearest_pos.
  exact (fdiv_opp (S754_finite s r 0) (S754_finite false q 0)).
Qed.

Lemma fmul_nonneg x y :
  non_negative x = true -> non_negative y = true ->
  is_infinite x = false -> is_infinite y = false ->
  non_negative (fmul x y) = true.
Proof.
  unfold fmul, SFmul.
  destruct x as [s|s| |s mx ex], y as [t|t| |t my ey];
    cbn [non_negative is_infinite]; intros Hx Hy Hix Hiy;
    try discriminate; try reflexivity.
  all: destruct s; try discriminate; destruct t; try discriminate;
    try reflexivity.
  cbn [xorb]. apply binary_round_aux_nonneg. lia.
Qed.

Lemma fmul_nonneg_by_constant x my ey :
  non_negative x = true ->
  non_negative (fmul x (S754_finite false my ey)) = true.
Proof.
  unfold fmul, SFmul.
  destruct x as [s|s| |s mx ex]; cbn [non_negative]; intros Hx;
    try discriminate; try reflexivity.
  all: destruct s; try discriminate; try reflexivity.
  cbn [xorb]. apply binary_round_aux_nonneg. lia.
Qed.

(** X12: for a non-negative module count and a finite non-negative energy
    per module, every float in the response of [calculate_teg_plan] is
    [>= 0]: the energy, its kWh value, the CO2 saved and the credits are
    never negative and never NaN. *)
Theorem calculate_teg_plan_non_negative n e c w fs d :
  0 <= n ->
  non_negative e = true ->
  is_infinite e = false ->
  result (calculate_teg_plan
            {| num_tegs := n; energy_per_module_wh := e;
               cost_per_module_rm := c |} w fs) = Returned d ->
  forall k x, dict_lookup d k = Some (PyFloat x) -> non_negative x = true.
Proof.
  intros Hn He Hfin. unfold_handler. unfold int_mul_float.
  cbn [num_tegs energy_per_module_wh].
  destruct (is_infinite (of_Z n)) eqn:Hinf; cbn [fst]; [discriminate|].
  intros Hr. injection Hr as <-.
  assert (Hwh : non_negative (fmul (of_Z n) e) = true)
    by (apply fmul_nonneg; auto using of_Z_nonneg).
  assert (Hk : exists m ex, of_Z 1000 = S754_finite false m ex)
    by (vm_compute; eauto).
  destruct Hk as (mk & ek & Hk).
  assert (Hkwh : non_negative (fdiv (fmul (of_Z n) e) (of_Z 1000)) = true)
    by (rewrite Hk; apply fdiv_nonneg; exact Hwh).
  assert (Hc : forall y, (exists m ex, y = S754_finite false m ex) ->
               non_negative (fmul (fdiv (fmul (of_Z n) e) (of_Z 1000)) y) = true).
  { intros y (m & ex & ->). apply fmul_nonneg_by_constant. exact Hkwh. }
  assert (Hco2 : non_negative
                   (fmul (fdiv (fmul (of_Z n) e) (of_Z 1000)) CO2_PER_KWH_KG) = true)
    by (apply Hc; vm_compute; eauto).
  assert (Hcc : non_negative
                  (fmul (fmul (fdiv (fmul (of_Z n) e) (of_Z 1000)) CO2_PER_KWH_KG)
                     CARBON_CREDIT_PER_KG) = true).
  { assert (exists m ex, CARBON_CREDIT_PER_KG = S754_finite false m ex)
      as (m & ex & ->) by (vm_compute; eauto).
    apply fmul_nonneg_by_constant. exact Hco2. }
  intros k x Hlook. cbn [dict_lookup] in Hlook.
  repeat match type of Hlook with
         | (if ?b then _ else _) = _ => destruct b
         end;
    try discriminate; injection Hlook as <-;
    auto using round_digits_nonneg.
Qed.

Lemma calculate_teg_plan_non_negative_witness :
  non_negative (of_decimal 75 (-1)) = true.
Proof.
  destruct (result (calculate_teg_plan small_plan clear_day ∅)) as [d|] eqn:Hr;
    [|vm_compute in Hr; discriminate].
  apply (calculate_teg_plan_non_negative 3 (of_decimal 25 (-1)) (of_decimal 1 0)
           clear_day ∅ d ltac:(lia) eq_refl eq_refl Hr
           "Total Energy Generated (Wh/day)").
  vm_compute in Hr. injection Hr as <-. reflexivity.
Defined.

(** X13: [num_tegs] is not validated, and a negative count mirrors the
    positive one: when the call for [n <> 0] returns, so does the call for
    [- n], every numeric entry of its response is the opposite of the entry
    for [n], and its range text is built from the opposite bounds. *)
Theorem calculate_teg_plan_mirror n e c w fs d :
  n <> 0 ->
  result (calculate_teg_plan
            {| num_tegs := n; energy_per_module_wh := e;
               cost_per_module_rm := c |} w fs) = Returned d ->
  exists d' a b,
    result (calculate_teg_plan
              {| num_tegs := - n; energy_per_module_wh := e;
                 cost_per_module_rm := c |} w fs) = Returned d' /\
    (forall k, k <> RANGE_KEY ->
               dict_lookup d' k = opposite <$> dict_lookup d k) /\
    dict_lookup d RANGE_KEY =
      Some (PyStr ("RM " ++ float_repr a ++ " - RM " ++ float_repr b)) /\
    dict_lookup d' RANGE_KEY =
      Some (PyStr ("RM " ++ float_repr (SFopp a) ++ " - RM " ++
                   float_repr (SFopp b))).
Proof.
  intros Hn. unfold_handler. unfold int_mul_float.
  cbn [num_tegs energy_per_module_wh].
  rewrite (of_Z_opp n Hn).
  assert (Hinf : is_infinite (SFopp (of_Z n)) = is_infinite (of_Z n))
    by (destruct (of_Z n); reflexivity).
  rewrite Hinf. destruct (is_infinite (of_Z n)); cbn [fst]; [discriminate|].
  intros Hr. injection Hr as <-.
  rewrite !fmul_opp, !fdiv_opp, !fmul_opp.
  do 3 eexists. split; [reflexivity|]. split; [|split].
  - intros k Hk. cbn [dict_lookup].
    repeat match goal with
           | |- context [String.eqb ?a k] =>
               destruct (String.eqb_spec a k) as [<-|?]
           end;
      cbn [fmap option_fmap option_map opposite];
      rewrite <- ?round_digits_opp; try reflexivity.
    exfalso. apply Hk. reflexivity.
  - reflexivity.
  - unfold savings_range_text. rewrite !round_digits_opp. reflexivity.
Qed.

Lemma calculate_teg_plan_mirror_witness :
  exists d',
    result (calculate_teg_plan returned_plan clear_day ∅) = Returned d' /\
    dict_lookup d' "Total Energy Generated (Wh/day)" =
      Some (PyFloat (SFopp (of_decimal 75 (-1)))) /\
    dict_lookup d' "Number of TEG Modules" = Some (PyInt (-3)).
Proof.
  destruct (result (calculate_teg_plan small_plan clear_day ∅)) as [d|] eqn:Hr;
    [|vm_compute in Hr; discriminate].
  destruct (calculate_teg_plan_mirror 3 (of_decimal 25 (-1)) (of_decimal 1 0)
              clear_day ∅ d ltac:(lia) Hr)
    as (d' & a & b & Hd' & Hk & _).
  exists d'. split; [exact Hd'|].
  rewrite !Hk by (unfold RANGE_KEY; discriminate).
  vm_compute in Hr. injection Hr as <-. split; reflexivity.
Defined.

(** X14: with no module and a finite energy per module, every quantity in
    the response is a zero carrying the sign of the energy: the range reads
    "RM 0.0 - RM 0.0", or "RM -0.0 - RM -0.0" for a negative energy. *)
Theorem calculate_teg_plan_no_module e c w fs :
  is_finite e = true ->
  result (calculate_teg_plan
            {| num_tegs := 0; energy_per_module_wh := e;
               cost_per_module_rm := c |} w fs) =
  Returned
    [("Total Energy Generated (Wh/day)", PyFloat (S754_zero (sign_bit e)));
     ("Total Energy (kWh/day)", PyFloat (S754_zero (sign_bit e)));
     ("Number of TEG Modules", PyInt 0);
     ("CO2 Saved (kg/day)", PyFloat (S754_zero (sign_bit e)));
     ("Carbon Credits Earned per Day", PyFloat (S754_zero (sign_bit e)));
     ("Daily Energy Cost Savings (RM Range)",
      PyStr (if sign_bit e then "RM -0.0 - RM -0.0" else "RM 0.0 - RM 0.0"))].
Proof.
  intros He.
  destruct e as [s|s| |s m x]; try discriminate; destruct s;
    vm_compute; reflexivity.
Qed.

Lemma calculate_teg_plan_no_module_witness :
  dict_lookup
    (match result (calculate_teg_plan no_modules clear_day ∅) with
     | Returned d => d
     | Raised _ => []
     end) RANGE_KEY = Some (PyStr "RM -0.0 - RM -0.0").
Proof.
  unfold no_modules.
  rewrite (calculate_teg_plan_no_module (SFopp (of_decimal 5 0))
             (of_decimal 2 0) clear_day ∅ eq_refl).
  reflexivity.
Defined.

(** *** The calendar arithmetic behind the date window *)

Lemma all_from_spec f n : forall o k,
  all_from f o n = true -> o <= k < o + Z.of_nat n -> f k = true.
Proof.
  induction n as [|n IH]; intros o k H Hk; [lia|].
  cbn [all_from] in H. destruct (f o) eqn:Hf; [|discriminate].
  destruct (Z.eq_dec k o) as [->|Hne]; [exact Hf|].
  apply (IH (o + 1)); [exact H | lia].
Qed.

Lemma month_day_table :
  all_from (month_day_ok false) 0 (Pos.to_nat 365) &&
  all_from (month_day_ok true) 0 (Pos.to_nat 365) = true.
Proof. vm_compute. reflexivity. Qed.

Lemma month_day_spec n leapyear :
  0 <= n < 365 -> month_day_ok leapyear n = true.
Proof.
  intros Hn. pose proof month_day_table as H.
  apply andb_true_iff in H. destruct H as (Hf & Ht).
  destruct leapyear.
  - apply (all_from_spec _ _ _ n Ht). rewrite positive_nat_Z. lia.
  - apply (all_from_spec _ _ _ n Hf). rewrite positive_nat_Z. lia.
Qed.

Lemma ord2ymd_month_day o :
  ord2ymd o =
  let n := o - 1 in
  let n400 := n / DI400Y in
  let n := n mod DI400Y in
  let n100 := n / DI100Y in
  let n := n mod DI100Y in
  let n4 := n / DI4Y in
  let n := n mod DI4Y in
  let n1 := n / 365 in
  let n := n mod 365 in
  let y := n400 * 400 + 1 + n100 * 100 + n4 * 4 + n1 in
  if Z.eqb n1 4 || Z.eqb n100 4 then (y - 1, 12, 31)
  else
    let '(m, d) :=
      month_day n (Z.eqb n1 3 && (negb (Z.eqb n4 24) || Z.eqb n100 3)) in
    (y, m, d).
Proof.
  unfold ord2ymd, month_day. cbv zeta.
  repeat match goal with
         | |- context [if ?b then _ else _] => destruct b
         end; reflexivity.
Qed.

(** The year arithmetic of [ord2ymd]. *)
Lemma year_split n0 :
  0 <= n0 ->
  let n400 := n0 / DI400Y in
  let r400 := n0 mod DI400Y in
  let n100 := r400 / DI100Y in
  let r100 := r400 mod DI100Y in
  let n4 := r100 / DI4Y in
  let r4 := r100 mod DI4Y in
  let n1 := r4 / 365 in
  let n := r4 mod 365 in
  0 <= n400 /\ 0 <= n100 <= 4 /\ 0 <= n4 <= 24 /\ 0 <= n1 <= 4 /\
  0 <= n < 365 /\
  n0 = DI400Y * n400 + DI100Y * n100 + DI4Y * n4 + 365 * n1 + n /\
  (n100 = 4 -> n4 = 0 /\ n1 = 0 /\ n = 0) /\
  (n1 = 4 -> n = 0 /\ (n4 <= 23 \/ n100 = 4)).
Proof.
  intros H0. cbv zeta. unfold DI400Y, DI100Y, DI4Y.
  Z.div_mod_to_equations. lia.
Qed.

Lemma days_before_year_split a b c e :
  0 <= b <= 3 -> 0 <= c <= 24 -> 0 <= e <= 3 ->
  days_before_year (a * 400 + 1 + b * 100 + c * 4 + e) =
  DI400Y * a + DI100Y * b + DI4Y * c + 365 * e.
Proof.
  intros Hb Hc He. unfold days_before_year, DI400Y, DI100Y, DI4Y. cbv zeta.
  Z.div_mod_to_equations. lia.
Qed.

Lemma mod_shift x k d r : 0 <= r < d -> x = r + k * d -> x mod d = r.
Proof.
  intros Hr ->. rewrite Z.mod_add by lia. apply Z.mod_small. exact Hr.
Qed.

Lemma is_leap_split a b c e :
  0 <= b <= 3 -> 0 <= c <= 24 -> 0 <= e <= 3 ->
  is_leap (a * 400 + 1 + b * 100 + c * 4 + e) =
  Z.eqb e 3 && (negb (Z.eqb c 24) || Z.eqb b 3).
Proof.
  intros Hb Hc He. unfold is_leap.
  destruct (Z.eqb_spec e 3) as [->|He3].
  - rewrite (mod_shift _ (a * 100 + b * 25 + c + 1) 4 0) by lia.
    cbn [Z.eqb andb].
    destruct (Z.eqb_spec c 24) as [->|Hc24].
    + rewrite (mod_shift _ (a * 4 + b + 1) 100 0) by lia.
      cbn [Z.eqb negb orb].
      destruct (Z.eqb_spec b 3) as [->|Hb3].
      * rewrite (mod_shift _ (a + 1) 400 0) by lia. reflexivity.
      * rewrite (mod_shift _ a 400 (100 * b + 100)) by lia.
        destruct (Z.eqb_spec (100 * b + 100) 0); [lia | reflexivity].
    + rewrite (mod_shift _ (a * 4 + b) 100 (4 * c + 4)) by lia.
      destruct (Z.eqb_spec (4 * c + 4) 0); [lia | reflexivity].
  - rewrite (mod_shift _ (a * 100 + b * 25 + c) 4 (1 + e)) by lia.
    destruct (Z.eqb_spec (1 + e) 0); [lia | reflexivity].
Qed.

Lemma ord2ymd_ymd2ord o :
  1 <= o -> ordinal_round_trip o = true.
Proof.
  intros Ho. unfold ordinal_round_trip. rewrite ord2ymd_month_day.
  pose proof (year_split (o - 1) ltac:(lia)) as H. cbv zeta in H |- *.
  set (n400 := (o - 1) / DI400Y) in *.
  set (r400 := (o - 1) mod DI400Y) in *.
  set (n100 := r400 / DI100Y) in *.
  set (r100 := r400 mod DI100Y) in *.
  set (n4 := r100 / DI4Y) in *.
  set (r4 := r100 mod DI4Y) in *.
  set (n1 := r4 / 365) in *.
  set (n := r4 mod 365) in *.
  clearbody n400 r400 n100 r100 n4 r4 n1 n.
  destruct H as (H400 & H100 & H4 & H1 & Hn & Hsum & Hlast & Hdec).
  destruct ((n1 =? 4) || (n100 =? 4)) eqn:Hspecial.
  - (* the last day of a leap year *)
    assert (Hy : exists a b c,
               0 <= a /\ 0 <= b <= 3 /\ 0 <= c <= 24 /\
               n400 * 400 + 1 + n100 * 100 + n4 * 4 + n1 - 1 =
                 a * 400 + 1 + b * 100 + c * 4 + 3 /\
               (c <> 24 \/ b = 3) /\
               o = DI400Y * a + DI100Y * b + DI4Y * c + 365 * 3 + 366).
    { apply orb_true_iff in Hspecial. unfold DI400Y, DI100Y, DI4Y in *.
      destruct (Z.eq_dec n100 4) as [E100|N100].
      - destruct (Hlast E100) as (-> & -> & ->).
        exists n400, 3, 24. lia.
      - assert (E1 : n1 = 4) by lia. destruct (Hdec E1) as (-> & Hc).
        exists n400, n100, n4. lia. }
    destruct Hy as (a & b & c & Ha & Hb & Hc & -> & Hleap & ->).
    unfold calendar_day, ymd2ord, days_before_month, days_in_month.
    rewrite is_leap_split, days_before_year_split by lia.
    replace (3 =? 3) with true by reflexivity.
    replace (negb (c =? 24) || (b =? 3)) with true
      by (symmetry; destruct (Z.eqb_spec c 24); destruct (Z.eqb_spec b 3);
          cbn; try reflexivity; lia).
    vm_compute DAYS_BEFORE_MONTH. 
    apply andb_true_iff. split.
    + repeat (apply andb_true_iff; split); try reflexivity. lia.
    + apply Z.eqb_eq.
      change (DAYS_BEFORE_MONTH 12) with 334. change (2 <? 12) with true.
      cbn [andb]. lia.
  - apply orb_false_iff in Hspecial. destruct Hspecial as (N1 & N100).
    apply Z.eqb_neq in N1, N100.
    pose proof (month_day_spec n
                  ((n1 =? 3) && (negb (n4 =? 24) || (n100 =? 3))) Hn) as Hmd.
    unfold month_day_ok in Hmd.
    destruct (month_day n ((n1 =? 3) && (negb (n4 =? 24) || (n100 =? 3))))
      as (m & d).
    rewrite !andb_true_iff in Hmd.
    destruct Hmd as ((((Hm1 & Hm12) & Hd1) & Hd) & Hsum').
    apply Z.eqb_eq in Hsum'.
    unfold calendar_day, ymd2ord, days_before_month, days_in_month.
    rewrite is_leap_split, days_before_year_split by lia.
    apply andb_true_iff. split.
    + rewrite !andb_true_iff. repeat split; try assumption; [lia|].
      destruct (Z.eqb_spec m 2) as [->|Hm2]; cbn [andb] in Hd |- *; [|lia].
      change (DAYS_IN_MONTH 2) with 28 in Hd |- *.
      destruct ((n1 =? 3) && (negb (n4 =? 24) || (n100 =? 3))); lia.
    + apply Z.eqb_eq. lia.
Qed.

Lemma month_cases m :
  1 <= m <= 12 ->
  m = 1 \/ m = 2 \/ m = 3 \/ m = 4 \/ m = 5 \/ m = 6 \/
  m = 7 \/ m = 8 \/ m = 9 \/ m = 10 \/ m = 11 \/ m = 12.
Proof. lia. Qed.

Lemma is_leap_multiple_of_4 y : is_leap y = true -> y mod 4 = 0.
Proof.
  unfold is_leap. rewrite andb_true_iff. intros (H & _). lia.
Qed.

Ltac month_tables :=
  repeat match goal with
         | |- context [DAYS_BEFORE_MONTH (Z.pos ?k)] =>
             let v := eval vm_compute in (DAYS_BEFORE_MONTH (Z.pos k)) in
             change (DAYS_BEFORE_MONTH (Z.pos k)) with v
         | H : context [DAYS_IN_MONTH (Z.pos ?k)] |- _ =>
             let v := eval vm_compute in (DAYS_IN_MONTH (Z.pos k)) in
             change (DAYS_IN_MONTH (Z.pos k)) with v in H
         | |- context [2 <? Z.pos ?k] =>
             let v := eval vm_compute in (2 <? Z.pos k) in
             change (2 <? Z.pos k) with v
         | H : context [Z.pos ?k =? 2] |- _ =>
             let v := eval vm_compute in (Z.pos k =? 2) in
             change (Z.pos k =? 2) with v in H
         end.

Lemma calendar_day_ordinal y m d :
  calendar_day y m d = true ->
  days_before_year y < ymd2ord y m d <=
  days_before_year y + (if is_leap y then 366 else 365).
Proof.
  unfold calendar_day, ymd2ord, days_before_month, days_in_month.
  rewrite !andb_true_iff. intros ((((Hy & Hm1) & Hm12) & Hd1) & Hd).
  destruct (month_cases m ltac:(lia)) as
    [->|[->|[->|[->|[->|[->|[->|[->|[->|[->|[->| ->]]]]]]]]]]];
    month_tables; destruct (is_leap y); cbn [andb] in Hd |- *; lia.
Qed.

Lemma valid_date_ordinal t :
  valid_date t = true -> 1 <= toordinal t <= MAXORDINAL.
Proof.
  unfold valid_date, toordinal. rewrite andb_true_iff. intros (Hc & Hy).
  pose proof (calendar_day_ordinal _ _ _ Hc) as Ho.
  assert (Hy1 : 1 <= year t)
    by (unfold calendar_day in Hc; rewrite !andb_true_iff in Hc; lia).
  destruct (is_leap (year t)) eqn:Hl.
  - apply is_leap_multiple_of_4 in Hl.
    unfold days_before_year, MAXORDINAL in *. cbv zeta in *.
    Z.div_mod_to_equations. lia.
  - unfold days_before_year, MAXORDINAL in *. cbv zeta in *.
    Z.div_mod_to_equations. lia.
Qed.

Lemma ordinal_year_bound y m d :
  calendar_day y m d = true -> ymd2ord y m d <= MAXORDINAL -> y <= 9999.
Proof.
  intros Hc Ho. pose proof (calendar_day_ordinal _ _ _ Hc) as H.
  unfold days_before_year, MAXORDINAL in *. cbv zeta in *.
  Z.div_mod_to_equations. lia.
Qed.

Lemma minus_days_returns t n y m d :
  0 < toordinal t - n <= MAXORDINAL ->
  ord2ymd (toordinal t - n) = (y, m, d) ->
  minus_days t n =
  Returned {| year := y; month := m; day := d;
              hour := hour t; minute := minute t; second := second t |}.
Proof.
  intros Ho E. unfold minus_days. fold (toordinal t). cbv zeta.
  rewrite E.
  destruct (Z.ltb_spec 0 (toordinal t - n)); [|lia].
  destruct (Z.leb_spec (toordinal t - n) MAXORDINAL); [|lia].
  reflexivity.
Qed.

Lemma ord2ymd_valid o y m d :
  1 <= o <= MAXORDINAL ->
  ord2ymd o = (y, m, d) ->
  calendar_day y m d = true /\ y <= 9999 /\ ymd2ord y m d = o.
Proof.
  intros Ho E.
  pose proof (ord2ymd_ymd2ord o ltac:(lia)) as Hrt.
  unfold ordinal_round_trip in Hrt. rewrite E in Hrt.
  apply andb_true_iff in Hrt. destruct Hrt as (Hc & He).
  apply Z.eqb_eq in He.
  split; [exact Hc|]. split; [|exact He].
  apply (ordinal_year_bound y m d Hc). rewrite He. apply Ho.
Qed.

Lemma minus_days_valid t n :
  valid_date t = true ->
  0 <= n < toordinal t ->
  exists s,
    minus_days t n = Returned s /\
    valid_date s = true /\
    toordinal s = toordinal t - n /\
    (hour s, minute s, second s) = (hour t, minute t, second t).
Proof.
  intros Ht Hn. pose proof (valid_date_ordinal t Ht) as Ho.
  destruct (ord2ymd (toordinal t - n)) as ((y & m) & d) eqn:E.
  destruct (ord2ymd_valid (toordinal t - n) y m d ltac:(lia) E)
    as (Hc & Hy & He).
  rewrite (minus_days_returns t n y m d ltac:(lia) E).
  eexists. split; [reflexivity|].
  split; [|split; [exact He | reflexivity]].
  unfold valid_date. cbn [year month day].
  rewrite Hc. apply Z.leb_le. exact Hy.
Qed.

(** X15: for a clock reading that is a calendar date later than day 200 of
    year 1, the start of the window is a calendar date exactly 200 days
    before the clock's date, the run starts with the size query, and every
    collection the run asks the service about (the size query, the rendered
    raster and both sampled rasters) is filtered to the dates from that
    start to the clock's date. *)
Theorem get_lst_date_window data w fs :
  valid_date (clock_utcnow w) = true ->
  200 < toordinal (clock_utcnow w) ->
  exists start_date,
    minus_days (clock_utcnow w) 200 = Returned start_date /\
    valid_date start_date = true /\
    toordinal start_date = toordinal (clock_utcnow w) - 200 /\
    (exists c r, hd_error (trace (get_lst data w fs)) = Some (EvSize c r)) /\
    forall e c,
      In e (trace (get_lst data w fs)) -> collection_of e = Some c ->
      window c = Some (strftime DATE start_date,
                       strftime DATE (clock_utcnow w)).
Proof.
  intros Hv H200.
  destruct (minus_days_valid (clock_utcnow w) 200 Hv ltac:(lia))
    as (s & Hs & Hvs & Hord & _).
  exists s. split; [exact Hs|]. split; [exact Hvs|]. split; [exact Hord|].
  unfold_handler. rewrite Hs. split.
  - split_run; do 2 eexists; reflexivity.
  - split_run; intros ev col Hin Hcol; trace_cases;
      cbn [collection_of] in Hcol; try discriminate;
      injection Hcol as <-; reflexivity.
Qed.

Lemma get_lst_date_window_witness :
  exists start_date,
    minus_days request_time 200 = Returned start_date /\
    strftime DATE start_date = "2023-10-19" /\
    toordinal start_date = toordinal request_time - 200.
Proof.
  destruct (get_lst_date_window kuala_lumpur clear_day ∅ eq_refl eq_refl)
    as (s & Hs & _ & Ho & _).
  exists s. split; [exact Hs|]. split; [|exact Ho].
  vm_compute in Hs. injection Hs as <-. vm_compute. reflexivity.
Defined.

(** *** The range of [float(n)] *)

Lemma digits2_size p : digits2_pos p = Pos.size p.
Proof. induction p as [p IH|p IH|]; simpl; congruence. Qed.

Lemma digits2_below p k : Z.pos p < 2 ^ k -> Z.pos (digits2_pos p) <= k.
Proof.
  intros H. rewrite digits2_size.
  destruct (Z.le_gt_cases (Z.pos (Pos.size p)) k) as [Hle|Hgt]; [exact Hle|].
  exfalso.
  assert (Hk : 0 <= k).
  { destruct (Z.le_gt_cases 0 k) as [?|Hneg]; [assumption|].
    rewrite Z.pow_neg_r in H by lia. lia. }
  pose proof (Pos.size_le p) as Hs.
  assert (Hz : 2 ^ Z.pos (Pos.size p) <= Z.pos (xO p)).
  { rewrite <- Pos2Z.inj_pow. apply Pos2Z.pos_le_pos. exact Hs. }
  assert (Hm : 2 ^ (k + 1) <= 2 ^ Z.pos (Pos.size p))
    by (apply Z.pow_le_mono_r; lia).
  rewrite Z.pow_add_r in Hm by lia. lia.
Qed.

Lemma digits2_succ p :
  Z.pos (digits2_pos (Pos.succ p)) <= Z.pos (digits2_pos p) + 1.
Proof.
  induction p as [p IH|p IH|].
  - change (Pos.succ (xI p)) with (xO (Pos.succ p)). cbn [digits2_pos].
    rewrite !Pos2Z.inj_succ. lia.
  - change (Pos.succ (xO p)) with (xI p). cbn [digits2_pos]. lia.
  - change (Pos.succ xH) with (xO xH). cbn [digits2_pos].
    rewrite ?Pos2Z.inj_succ. lia.
Qed.

Lemma digits2_shl p k :
  Z.pos (digits2_pos (Pos.iter xO p k)) = Z.pos (digits2_pos p) + Z.pos k.
Proof.
  induction k as [|k IH] using Pos.peano_ind.
  - cbn. lia.
  - rewrite Pos.iter_succ. cbn [digits2_pos].
    rewrite !Pos2Z.inj_succ. lia.
Qed.

Lemma Zdigits2_nonneg m : 0 <= Zdigits2 m.
Proof. destruct m; cbn; lia. Qed.

Lemma digits_shr_1 mrs :
  0 <= shr_m mrs ->
  Zdigits2 (shr_m (shr_1 mrs)) <= Z.max 0 (Zdigits2 (shr_m mrs) - 1).
Proof.
  destruct mrs as [m r s]. destruct m as [|[p|p|]|[p|p|]];
    cbn [shr_1 shr_m Zdigits2 digits2_pos]; lia.
Qed.

Lemma digits_iter_shr_1 p : forall mrs,
  0 <= shr_m mrs ->
  Zdigits2 (shr_m (SpecFloat.iter_pos shr_1 p mrs)) <=
  Z.max 0 (Zdigits2 (shr_m mrs) - Z.pos p).
Proof.
  induction p as [p IH|p IH|]; intros mrs H; cbn [SpecFloat.iter_pos].
  - pose proof (shr_1_nonneg mrs H) as H1.
    pose proof (iter_shr_1_nonneg p _ H1) as H2.
    pose proof (IH _ H2). pose proof (IH _ H1).
    pose proof (digits_shr_1 mrs H). lia.
  - pose proof (iter_shr_1_nonneg p _ H) as H2.
    pose proof (IH _ H2). pose proof (IH _ H). lia.
  - apply digits_shr_1. exact H.
Qed.

Lemma digits_round_nearest_even m l :
  0 <= m -> Zdigits2 (round_nearest_even m l) <= Zdigits2 m + 1.
Proof.
  intros Hm.
  assert (Hs : Zdigits2 (m + 1) <= Zdigits2 m + 1).
  { destruct m as [|p|p]; [vm_compute; discriminate| |lia].
    replace (Z.pos p + 1) with (Z.pos (Pos.succ p)) by lia.
    apply digits2_succ. }
  unfold round_nearest_even.
  destruct l as [|[ | | ]]; try destruct (Z.even m); lia.
Qed.

Lemma shr_record_of_loc_m m l : shr_m (shr_record_of_loc m l) = m.
Proof. destruct l as [|[ | | ]]; reflexivity. Qed.

(** One alignment step: the exponent becomes the larger of [e] and the
    lowest exponent for the magnitude, and the magnitude does not grow. *)
Lemma shr_fexp_bounds m e l :
  0 <= m ->
  let '(mrs, e') := shr_fexp prec emax m e l in
  0 <= shr_m mrs /\
  e' = Z.max e (fexp prec emax (Zdigits2 m + e)) /\
  Zdigits2 (shr_m mrs) + e' <= Z.max (Zdigits2 m + e) e'.
Proof.
  intros Hm. unfold shr_fexp, shr.
  pose proof (shr_record_of_loc_m m l) as Hrec.
  pose proof (Zdigits2_nonneg m) as Hd.
  destruct (fexp prec emax (Zdigits2 m + e) - e) as [|p|p] eqn:Hn.
  - rewrite Hrec. repeat split; lia.
  - pose proof (digits_iter_shr_1 p (shr_record_of_loc m l)
                  ltac:(rewrite Hrec; exact Hm)) as Hp.
    rewrite Hrec in Hp.
    split; [apply iter_shr_1_nonneg; rewrite Hrec; exact Hm|].
    split; lia.
  - rewrite Hrec. repeat split; lia.
Qed.

Lemma binary_round_aux_finite sx m e l :
  0 <= m -> e <= emax - prec -> Zdigits2 m + e < emax ->
  is_infinite (binary_round_aux prec emax sx m e l) = false.
Proof.
  intros Hm He Hd. unfold binary_round_aux.
  pose proof (shr_fexp_bounds m e l Hm) as H1.
  destruct (shr_fexp prec emax m e l) as [mrs' e'].
  destruct H1 as (Hm' & He' & Hd').
  pose proof (digits_round_nearest_even (shr_m mrs') (loc_of_shr_record mrs') Hm')
    as Hr.
  assert (Hr0 : 0 <= round_nearest_even (shr_m mrs') (loc_of_shr_record mrs')).
  { unfold round_nearest_even.
    destruct (loc_of_shr_record mrs') as [|[ | | ]];
      try destruct (Z.even (shr_m mrs')); lia. }
  pose proof (shr_fexp_bounds _ e' loc_Exact Hr0) as H2.
  destruct (shr_fexp prec emax _ e' loc_Exact) as [mrs'' e''].
  destruct H2 as (_ & He'' & _).
  destruct (shr_m mrs'') as [|q|q]; try reflexivity.
  destruct (Z.leb_spec e'' (emax - prec)); [reflexivity|].
  exfalso. unfold fexp, SpecFloat.emin, emax, prec in *. lia.
Qed.

(** [float(n)] is finite for every int of magnitude below [2 ^ 1023]. *)
Lemma of_Z_finite n : Z.abs n < 2 ^ 1023 -> is_infinite (of_Z n) = false.
Proof.
  intros Hn. unfold of_Z, binary_normalize.
  assert (H : forall sx p, Z.pos p < 2 ^ 1023 ->
                is_infinite (binary_round prec emax sx p 0) = false).
  { intros sx p Hp. pose proof (digits2_below p 1023 Hp) as Hd.
    unfold binary_round, shl_align.
    destruct (fexp prec emax (Z.pos (digits2_pos p) + 0) - 0) as [|k|k] eqn:Hk;
      apply binary_round_aux_finite; cbn [Zdigits2];
      try rewrite digits2_shl;
      unfold fexp, SpecFloat.emin, emax, prec in *; lia. }
  destruct n as [|p|p]; [reflexivity| |]; apply H; lia.
Qed.

(** X16: for every module count of magnitude below [2 ^ 1023], whatever the
    two float inputs (NaN and infinities included), [calculate_teg_plan]
    raises nothing: it returns a response with its six entries, in the
    order of the source. *)
Theorem calculate_teg_plan_returns n e c w fs :
  Z.abs n < 2 ^ 1023 ->
  exists d,
    result (calculate_teg_plan
              {| num_tegs := n; energy_per_module_wh := e;
                 cost_per_module_rm := c |} w fs) = Returned d /\
    map fst d =
      ["Total Energy Generated (Wh/day)"; "Total Energy (kWh/day)";
       "Number of TEG Modules"; "CO2 Saved (kg/day)";
       "Carbon Credits Earned per Day"; RANGE_KEY].
Proof.
  intros Hn. unfold_handler. unfold int_mul_float.
  cbn [num_tegs energy_per_module_wh].
  rewrite (of_Z_finite n Hn). cbn [fst].
  eexists. split; reflexivity.
Qed.

Lemma calculate_teg_plan_returns_witness :
  exists d, result (calculate_teg_plan worked_plan clear_day ∅) = Returned d.
Proof.
  destruct (calculate_teg_plan_returns 100 (of_decimal 5 0) (of_decimal 2 0)
              clear_day ∅ eq_refl) as (d & Hd & _).
  exists d. exact Hd.
Defined.

(** *** Thumbnails of nearby points *)

Lemma get_lst_write data w fs p b :
  In (EvWrite p b) (trace (get_lst data w fs)) ->
  p = lst_path data (clock_now w) /\
  files_after (get_lst data w fs) = <[p := b]> fs.
Proof.
  unfold_handler. split_run; intros Hin; trace_cases; split; reflexivity.
Qed.

Lemma lst_path_rounded data1 data2 t1 t2 :
  round_digits (lat data1) 6 = round_digits (lat data2) 6 ->
  round_digits (lon data1) 6 = round_digits (lon data2) 6 ->
  strftime TIMESTAMP t1 = strftime TIMESTAMP t2 ->
  lst_path data1 t1 = lst_path data2 t2.
Proof.
  unfold lst_path, lst_filename, TIMESTAMP. intros -> -> ->. reflexivity.
Qed.

(** X17: the thumbnail of [get_lst] is named after the coordinate rounded
    to 6 decimals and the clock reading to the second: two requests whose
    coordinates round alike, served within one second, write the same path,
    and the thumbnail of the first is replaced by that of the second. *)
Theorem get_lst_thumbnails_collide data1 data2 w1 w2 fs p1 b1 p2 b2 :
  round_digits (lat data1) 6 = round_digits (lat data2) 6 ->
  round_digits (lon data1) 6 = round_digits (lon data2) 6 ->
  strftime TIMESTAMP (clock_now w1) = strftime TIMESTAMP (clock_now w2) ->
  In (EvWrite p1 b1) (trace (get_lst data1 w1 fs)) ->
  In (EvWrite p2 b2)
     (trace (get_lst data2 w2 (files_after (get_lst data1 w1 fs)))) ->
  p2 = p1 /\
  files_after (get_lst data2 w2 (files_after (get_lst data1 w1 fs))) =
    <[p1 := b2]> fs.
Proof.
  intros Hlat Hlon Ht H1 H2.
  apply get_lst_write in H1 as (Hp1 & Hf1).
  apply get_lst_write in H2 as (Hp2 & Hf2).
  assert (Hp : p2 = p1).
  { rewrite Hp1, Hp2. symmetry. apply lst_path_rounded; assumption. }
  split; [exact Hp|].
  rewrite Hf2, Hf1, Hp. apply insert_insert_eq.
Qed.

Lemma get_lst_thumbnails_collide_witness :
  files_after (get_lst next_door later_reply
                 (files_after (get_lst kuala_lumpur clear_day ∅))) =
  {[lst_path kuala_lumpur request_time := other_bytes]}.
Proof.
  destruct (get_lst_thumbnails_collide kuala_lumpur next_door clear_day
              later_reply ∅
              (lst_path kuala_lumpur request_time) image_bytes
              (lst_path next_door request_time) other_bytes)
    as (_ & Hf).
  - vm_compute. reflexivity.
  - vm_compute. reflexivity.
  - reflexivity.
  - vm_compute. do 5 right. left. reflexivity.
  - vm_compute. do 5 right. left. reflexivity.
  - rewrite Hf. reflexivity.
Defined.

End Properties.
